(** * devchat: the workflow engine and the configuration manager

    A shallow embedding of

    - [src/devchat/core/workflows/workflow.py]  (module [Core] below),
    - [.github/_cli/workflow/manager.py]        (module [Cli] below),
    - [src/devchat/core/config/config.py]       (module [Conf] below),
    - [.github/_cli/workflow.py]                (module [WorkflowCmd] below),
    - [.github/_cli/config.py]                  (module [ConfigCmd] below),
    - [src/devchat/core/analysis/analyzer.py]   (module [Analysis] below),

    followed by the properties of the workflow store, of a workflow run, of
    the commands and of the complexity measure.

    Conventions of the embedding.

    - Python objects that come out of [yaml.safe_load] are values of the
      type [value]; a Python [dict] is an association list in insertion
      order, with at most one binding per key.
    - A function that can raise returns a [res]: [Ok v] or [Raise e].
    - A file is identified with the document [yaml.safe_load] reads from it,
      and [yaml.dump d f] makes the file hold [d]; the file system is a finite
      map from paths to documents.  A directory is on the disk when a file
      of the disk lies beneath it, and paths are compared as they are
      written.  Other failing input and output (a read-only disk, a full
      one) is outside the model.
    - Calls to the logger leave no mark. *)

From Stdlib Require Import ZArith Ascii String List Bool Lia.
From stdpp Require Import gmap strings list fin_maps.
Import ListNotations.

(** ** Python values, exceptions and results *)

Module Py.

(** The data [yaml.safe_load] produces (a float is carried by its [repr]
    and never computed with; the keys of a mapping are strings). *)
#[local] Set Warnings "-register-all".
Inductive value : Type :=
| VNone
| VBool (b : bool)
| VInt (z : Z)
| VFloat (repr : string)
| VStr (s : string)
| VList (items : list value)
| VDict (entries : list (string * value)).

(** A Python [dict] with string keys, in insertion order. *)
Definition pydict (V : Type) : Type := list (string * V).

(** Exceptions.  Those the interpreter raises carry the name of the type
    of the object it complains about; those the program raises carry their
    message; [External] stands for what a collaborator can raise (any
    subclass of [Exception]). *)
Inductive exn : Type :=
| AttributeError (type_name : string) (attr : string)
| TypeError (what : string) (type_name : string)
| KeyError (key : string)
| ValueError (msg : string)
| FileNotFoundError (msg : string)
| ValidationError (model : string) (field : string)
| External (cls : string) (msg : string).

Inductive res (A : Type) : Type :=
| Ok (a : A)
| Raise (e : exn).
Arguments Ok {A} a.
Arguments Raise {A} e.

Definition res_bind {A B : Type} (r : res A) (k : A -> res B) : res B :=
  match r with
  | Ok a => k a
  | Raise e => Raise e
  end.

Declare Scope res_scope.
Delimit Scope res_scope with res.
Notation "'let?' x ':=' r 'in' k" := (res_bind r (fun x => k))
  (at level 10, x name, r at level 100, k at level 200) : res_scope.

(** *** Dictionaries *)

Section Dict.
Context {V : Type}.

(** [d.get(k)], as an option. *)
Fixpoint dict_get (k : string) (d : pydict V) : option V :=
  match d with
  | [] => None
  | (k', v) :: rest => if String.eqb k' k then Some v else dict_get k rest
  end.

(** [k in d]. *)
Definition dict_mem (k : string) (d : pydict V) : bool :=
  match dict_get k d with Some _ => true | None => false end.

(** [d[k] = v]: an existing key keeps its place, a new one goes last. *)
Fixpoint dict_set (k : string) (v : V) (d : pydict V) : pydict V :=
  match d with
  | [] => [(k, v)]
  | (k', v') :: rest =>
      if String.eqb k' k then (k, v) :: rest else (k', v') :: dict_set k v rest
  end.

(** [del d[k]] for a key that is present. *)
Fixpoint dict_del (k : string) (d : pydict V) : pydict V :=
  match d with
  | [] => []
  | (k', v') :: rest =>
      if String.eqb k' k then rest else (k', v') :: dict_del k rest
  end.

(** [list(d.keys())]. *)
Definition dict_keys (d : pydict V) : list string := map fst d.

End Dict.

(** *** Operations that depend on the run-time type *)

(** [bool(v)]. *)
Definition truthy (v : value) : bool :=
  match v with
  | VNone => false
  | VBool b => b
  | VInt z => negb (Z.eqb z 0)
  | VFloat r => negb (String.eqb r "0.0" || String.eqb r "-0.0")
  | VStr s => negb (String.eqb s "")
  | VList l => match l with [] => false | _ => true end
  | VDict d => match d with [] => false | _ => true end
  end.

(** [type(v).__name__]. *)
Definition type_name (v : value) : string :=
  match v with
  | VNone => "NoneType"
  | VBool _ => "bool"
  | VInt _ => "int"
  | VFloat _ => "float"
  | VStr _ => "str"
  | VList _ => "list"
  | VDict _ => "dict"
  end.

(** [v == s] for a string [s]. *)
Definition is_str (v : value) (s : string) : bool :=
  match v with
  | VStr t => String.eqb t s
  | _ => false
  end.

(** [v.get(k, default)]: only a [dict] has the method. *)
Definition py_get (v : value) (k : string) (default : value) : res value :=
  match v with
  | VDict d => Ok (match dict_get k d with Some x => x | None => default end)
  | _ => Raise (AttributeError (type_name v) "get")
  end.

(** [v[k]] for a string [k]. *)
Definition py_getitem (v : value) (k : string) : res value :=
  match v with
  | VDict d =>
      match dict_get k d with Some x => Ok x | None => Raise (KeyError k) end
  | _ => Raise (TypeError "subscript" (type_name v))
  end.

Fixpoint chars (s : string) : list value :=
  match s with
  | EmptyString => []
  | String c rest => VStr (String c EmptyString) :: chars rest
  end.

(** What [for x in v] goes through. *)
Definition py_iter (v : value) : res (list value) :=
  match v with
  | VList l => Ok l
  | VDict d => Ok (map VStr (dict_keys d))
  | VStr s => Ok (chars s)
  | _ => Raise (TypeError "not iterable" (type_name v))
  end.

(** [len(v)]. *)
Definition py_len (v : value) : res nat :=
  match v with
  | VList l => Ok (List.length l)
  | VDict d => Ok (List.length d)
  | VStr s => Ok (String.length s)
  | _ => Raise (TypeError "len" (type_name v))
  end.

(** [s in t] for two strings: [s] occurs in [t]. *)
Fixpoint occurs_in (s t : string) : bool :=
  String.prefix s t ||
  match t with
  | EmptyString => false
  | String _ rest => occurs_in s rest
  end.

(** [k in v] for a string [k]. *)
Definition py_contains (k : string) (v : value) : res bool :=
  match v with
  | VDict d => Ok (dict_mem k d)
  | VList l =>
      Ok (existsb (fun x => is_str x k) l)
  | VStr t => Ok (occurs_in k t)
  | _ => Raise (TypeError "not iterable" (type_name v))
  end.

(** [v[k] = x] for a string [k]. *)
Definition py_setitem (v : value) (k : string) (x : value) : res value :=
  match v with
  | VDict d => Ok (VDict (dict_set k x d))
  | _ => Raise (TypeError "item assignment" (type_name v))
  end.

(** [del v[k]] for a string [k]. *)
Definition py_delitem (v : value) (k : string) : res value :=
  match v with
  | VDict d =>
      if dict_mem k d then Ok (VDict (dict_del k d)) else Raise (KeyError k)
  | _ => Raise (TypeError "item deletion" (type_name v))
  end.

(** [list(v.keys())]. *)
Definition py_keys (v : value) : res (list string) :=
  match v with
  | VDict d => Ok (dict_keys d)
  | _ => Raise (AttributeError (type_name v) "keys")
  end.

(** *** The trace of a run

    A run is observed through the calls it makes to step handlers and the
    outcomes it records, in the order in which they happen. *)
Inductive event : Type :=
| Invoke (handler : string) (args : list value)
| Store (key : string) (outcome : value)
| Append (entry : value).

(** The local variable [results] of a run together with the trace: what
    is left when the loop over the steps is abandoned by an exception. *)
Record frame (R : Type) : Type := Frame { results : R; trace : list event }.
Arguments Frame {R} results trace.
Arguments results {R} f.
Arguments trace {R} f.

(** Code that reads and updates [results], calls handlers and can raise. *)
Definition M (R A : Type) : Type := frame R -> res A * frame R.

Definition ret {R A : Type} (a : A) : M R A := fun f => (Ok a, f).

Definition bind {R A B : Type} (m : M R A) (k : A -> M R B) : M R B :=
  fun f =>
    match m f with
    | (Ok a, f') => k a f'
    | (Raise e, f') => (Raise e, f')
    end.

Definition lift {R A : Type} (r : res A) : M R A := fun f => (r, f).

(** A call to a handler: it is logged, then it answers or raises. *)
Definition call {R A : Type} (handler : string) (args : list value)
  (answer : res A) : M R A :=
  fun f => (answer, Frame (results f) (trace f ++ [Invoke handler args])).

(** [results[key] = outcome]. *)
Definition store (key : string) (outcome : value) : M (pydict value) unit :=
  fun f =>
    (Ok tt, Frame (dict_set key outcome (results f)) (trace f ++ [Store key outcome])).

(** [results.append(entry)]. *)
Definition append (entry : value) : M (list value) unit :=
  fun f => (Ok tt, Frame (results f ++ [entry]) (trace f ++ [Append entry])).

(** [for x in l: body(x)]. *)
Fixpoint for_each {R A : Type} (l : list A) (body : A -> M R unit) : M R unit :=
  match l with
  | [] => ret tt
  | x :: rest => bind (body x) (fun _ => for_each rest body)
  end.

(** The frame a run starts from, and a frame followed by what a piece of
    code added to it. *)
Definition empty : frame (list value) := Frame [] [].

Definition extend (f g : frame (list value)) : frame (list value) :=
  Frame (results f ++ results g) (trace f ++ trace g).

(** Code that does not read the frame and only adds at its end. *)
Definition local {A : Type} (m : M (list value) A) : Prop :=
  forall f, m f = (fst (m empty), extend f (snd (m empty))).

Declare Scope run_scope.
Delimit Scope run_scope with run.
Notation "'let*' x ':=' m 'in' k" := (bind m (fun x => k))
  (at level 10, x name, m at level 100, k at level 200) : run_scope.

End Py.

(** ** The disk: files and their directories *)

Module Disk.
Import Py.

(** [path] cut at its last separator: the directory, and the name of the
    file in it. *)
Fixpoint split_last_sep (path : string) : option (string * string) :=
  match path with
  | EmptyString => None
  | String c rest =>
      match split_last_sep rest with
      | Some (dir, name) => Some (String c dir, name)
      | None => if Ascii.eqb c "/"%char then Some (EmptyString, rest) else None
      end
  end.

(** Whether [dir] is a directory of the disk: a file lies beneath it. *)
Definition is_dir (fs : gmap string value) (dir : string) : bool :=
  existsb (String.prefix (dir +:+ "/")) (map fst (map_to_list fs)).

(** Whether the directory of [path] is there, as [open(path, 'w')] needs
    it; the root and the current directory always are. *)
Definition parent_exists (fs : gmap string value) (path : string) : bool :=
  match split_last_sep path with
  | Some (dir, _) => String.eqb dir "" || is_dir fs dir
  | None => true
  end.

(** What [open(path, 'w')] raises when the directory of [path] is missing
    (with its [str], for a path that [repr] writes as it is). *)
Definition no_such_file (path : string) : exn :=
  FileNotFoundError
    ("[Errno 2] No such file or directory: '" +:+ path +:+ "'").

End Disk.

(** ** The core workflow manager: [core/workflows/workflow.py] *)

Module Core.
Import Py.
#[local] Open Scope res_scope.
#[local] Open Scope run_scope.

(** class [WorkflowStep(BaseModel)] *)
Record WorkflowStep : Type := {
  step_type : string;
  step_name : string;
  step_description : string;
  step_parameters : pydict value
}.

(** class [Workflow(BaseModel)] *)
Record Workflow : Type := {
  wf_name : string;
  wf_description : string;
  wf_steps : list WorkflowStep
}.

(** What pydantic does to the value given for a field annotated [str] and
    for one annotated [Dict].  A [str] and a [dict] are taken as they are;
    which other values are coerced and which are refused depends on the
    version of the library and is left open. *)
Class Pydantic : Type := {
  str_validator : value -> option string;
  dict_validator : value -> option (pydict value);
  str_validator_str : forall s, str_validator (VStr s) = Some s;
  dict_validator_dict : forall d, dict_validator (VDict d) = Some d
}.

(** The validators that accept nothing else. *)
Definition strict_str (v : value) : option string :=
  match v with VStr s => Some s | _ => None end.

Definition strict_dict (v : value) : option (pydict value) :=
  match v with VDict d => Some d | _ => None end.

#[export] Instance strict : Pydantic := {|
  str_validator := strict_str;
  dict_validator := strict_dict;
  str_validator_str := fun _ => eq_refl;
  dict_validator_dict := fun _ => eq_refl
|}.

Section Models.
Context `{Pydantic}.

(** A required field annotated [str]. *)
Definition str_field (model field : string) (kwargs : pydict value) : res string :=
  match dict_get field kwargs with
  | Some v =>
      match str_validator v with
      | Some s => Ok s
      | None => Raise (ValidationError model field)
      end
  | None => Raise (ValidationError model field)
  end.

(** The constructor of [WorkflowStep] applied to the keyword arguments
    [kwargs]; [parameters] defaults
    to the empty dict, keys that are not fields are ignored. *)
Definition WorkflowStep_init (kwargs : pydict value) : res WorkflowStep :=
  let? type := str_field "WorkflowStep" "type" kwargs in
  let? name := str_field "WorkflowStep" "name" kwargs in
  let? description := str_field "WorkflowStep" "description" kwargs in
  let? parameters :=
    match dict_get "parameters" kwargs with
    | None => Ok []
    | Some v =>
        match dict_validator v with
        | Some d => Ok d
        | None => Raise (ValidationError "WorkflowStep" "parameters")
        end
    end in
  Ok {| step_type := type; step_name := name;
        step_description := description; step_parameters := parameters |}.

(** The constructor applied to an unpacked [step], which has to be a
    mapping to be unpacked. *)
Definition WorkflowStep_kwargs (step : value) : res WorkflowStep :=
  match step with
  | VDict kwargs => WorkflowStep_init kwargs
  | _ => Raise (TypeError "argument after ** must be a mapping" (type_name step))
  end.

(** [[f(x) for x in l]] for an [f] that can raise. *)
Fixpoint map_res {A B : Type} (f : A -> res B) (l : list A) : res (list B) :=
  match l with
  | [] => Ok []
  | x :: rest =>
      let? y := f x in
      let? ys := map_res f rest in
      Ok (y :: ys)
  end.

(** An item of a field annotated [List[WorkflowStep]]. *)
Definition step_item (item : value) : res WorkflowStep :=
  match item with
  | VDict kwargs => WorkflowStep_init kwargs
  | _ => Raise (ValidationError "Workflow" "steps")
  end.

(** The constructor of [Workflow] applied to the keyword arguments
    [kwargs], and to an unpacked document. *)
Definition Workflow_init (kwargs : pydict value) : res Workflow :=
  let? name := str_field "Workflow" "name" kwargs in
  let? description := str_field "Workflow" "description" kwargs in
  let? steps :=
    match dict_get "steps" kwargs with
    | Some (VList items) => map_res step_item items
    | _ => Raise (ValidationError "Workflow" "steps")
    end in
  Ok {| wf_name := name; wf_description := description; wf_steps := steps |}.

Definition Workflow_kwargs (data : value) : res Workflow :=
  match data with
  | VDict kwargs => Workflow_init kwargs
  | _ => Raise (TypeError "argument after ** must be a mapping" (type_name data))
  end.

(** [step.dict()] and [workflow.dict()]. *)
Definition WorkflowStep_dict (step : WorkflowStep) : value :=
  VDict [("type", VStr (step_type step));
         ("name", VStr (step_name step));
         ("description", VStr (step_description step));
         ("parameters", VDict (step_parameters step))].

Definition Workflow_dict (workflow : Workflow) : value :=
  VDict [("name", VStr (wf_name workflow));
         ("description", VStr (wf_description workflow));
         ("steps", VList (map WorkflowStep_dict (wf_steps workflow)))].

(** class [WorkflowManager]: its only attribute is the directory. *)
Record WorkflowManager : Type := { workflows_dir : string }.

(** [dir / p] of pathlib: an absolute [p] stands for itself. *)
Definition joinpath (dir p : string) : string :=
  if String.prefix "/" p then p else dir +:+ "/" +:+ p.

(** [self.workflows_dir / f"{name}.yaml"] *)
Definition workflow_file (self : WorkflowManager) (name : string) : string :=
  joinpath (workflows_dir self) (name +:+ ".yaml").

(** Whether [open(path, 'w')] finds the directory of [path]: [__init__]
    has made the directory of the manager, with its parents; any other
    directory has to be on the disk. *)
Definition can_create (self : WorkflowManager) (fs : gmap string value)
  (path : string) : bool :=
  match Disk.split_last_sep path with
  | Some (dir, _) =>
      String.eqb dir (workflows_dir self) ||
      String.prefix (dir +:+ "/") (workflows_dir self) ||
      Disk.parent_exists fs path
  | None => true
  end.

(** [create_workflow(self, name, steps_file)]: the file system afterwards.
    The file of the workflow is opened last, after the record was built. *)
Definition create_workflow (self : WorkflowManager) (fs : gmap string value)
  (name steps_file : string) : res (gmap string value) :=
  match fs !! steps_file with
  | None => Raise (FileNotFoundError ("Steps file not found: " +:+ steps_file))
  | Some steps_data =>
      let? description := py_get steps_data "description" (VStr "") in
      let? listed := py_getitem steps_data "steps" in
      let? items := py_iter listed in
      let? steps := map_res WorkflowStep_kwargs items in
      let? description :=
        match str_validator description with
        | Some s => Ok s
        | None => Raise (ValidationError "Workflow" "description")
        end in
      let workflow :=
        {| wf_name := name; wf_description := description; wf_steps := steps |} in
      if can_create self fs (workflow_file self name)
      then Ok (<[workflow_file self name := Workflow_dict workflow]> fs)
      else Raise (Disk.no_such_file (workflow_file self name))
  end.

(** [get_workflow(self, name)] *)
Definition get_workflow (self : WorkflowManager) (fs : gmap string value)
  (name : string) : res (option Workflow) :=
  match fs !! workflow_file self name with
  | None => Ok None
  | Some workflow_data =>
      let? workflow := Workflow_kwargs workflow_data in
      Ok (Some workflow)
  end.

(** The two handlers are placeholders. *)
Definition _run_code_analysis (file_path : string) (parameters : pydict value)
  : value :=
  VDict [("status", VStr "not_implemented")].

Definition _run_test_generation (file_path : string) (parameters : pydict value)
  : value :=
  VDict [("status", VStr "not_implemented")].

(** The outcome recorded for a step whose type has no handler. *)
Definition skipped (type : string) : value :=
  VDict [("status", VStr "skipped");
         ("reason", VStr ("Unknown step type: " +:+ type))].

(** The body of the loop of [run_workflow]. *)
Definition run_step (file_path : string) (step : WorkflowStep)
  : M (pydict value) unit :=
  if String.eqb (step_type step) "code_analysis" then
    let* outcome :=
      call "_run_code_analysis" [VStr file_path; VDict (step_parameters step)]
        (Ok (_run_code_analysis file_path (step_parameters step))) in
    store (step_name step) outcome
  else if String.eqb (step_type step) "test_generation" then
    let* outcome :=
      call "_run_test_generation" [VStr file_path; VDict (step_parameters step)]
        (Ok (_run_test_generation file_path (step_parameters step))) in
    store (step_name step) outcome
  else
    store (step_name step) (skipped (step_type step)).

(** [run_workflow(self, name, file_path)]: what it returns or raises, and
    the trace of the run. *)
Definition run_workflow (self : WorkflowManager) (fs : gmap string value)
  (name file_path : string) : res (pydict value) * list event :=
  match get_workflow self fs name with
  | Raise e => (Raise e, [])
  | Ok None => (Raise (ValueError ("Workflow not found: " +:+ name)), [])
  | Ok (Some workflow) =>
      match for_each (wf_steps workflow) (run_step file_path) (Frame [] []) with
      | (Ok _, f) => (Ok (results f), trace f)
      | (Raise e, f) => (Raise e, trace f)
      end
  end.

End Models.

(** *** What a step contributes to a run

    Read off the three branches of the loop: the handler a type selects,
    the outcome recorded under the name of the step, and the events of
    the step. *)
Definition handler_of (type : string) : option string :=
  if String.eqb type "code_analysis" then Some "_run_code_analysis"
  else if String.eqb type "test_generation" then Some "_run_test_generation"
  else None.

Definition step_outcome (file_path : string) (step : WorkflowStep) : value :=
  if String.eqb (step_type step) "code_analysis" then
    _run_code_analysis file_path (step_parameters step)
  else if String.eqb (step_type step) "test_generation" then
    _run_test_generation file_path (step_parameters step)
  else skipped (step_type step).

Definition step_events (file_path : string) (step : WorkflowStep) : list event :=
  match handler_of (step_type step) with
  | Some handler =>
      [Invoke handler [VStr file_path; VDict (step_parameters step)];
       Store (step_name step) (step_outcome file_path step)]
  | None => [Store (step_name step) (step_outcome file_path step)]
  end.

(** [results] after the outcomes of [steps] were recorded in turn. *)
Definition record_all (file_path : string) (steps : list WorkflowStep)
  (results : pydict value) : pydict value :=
  fold_left
    (fun r step => dict_set (step_name step) (step_outcome file_path step) r)
    steps results.

(** The last of [steps] that is called [name]. *)
Fixpoint last_named (name : string) (steps : list WorkflowStep)
  : option WorkflowStep :=
  match steps with
  | [] => None
  | step :: rest =>
      match last_named name rest with
      | Some later => Some later
      | None => if String.eqb (step_name step) name then Some step else None
      end
  end.

(** *** A running example *)
Definition lint : WorkflowStep :=
  {| step_type := "code_analysis"; step_name := "lint";
     step_description := "static checks";
     step_parameters := [("level", VInt 2)] |}.

Definition ship : WorkflowStep :=
  {| step_type := "deploy"; step_name := "ship";
     step_description := "push the build"; step_parameters := [] |}.

Definition unit_tests : WorkflowStep :=
  {| step_type := "test_generation"; step_name := "tests";
     step_description := "write the tests"; step_parameters := [] |}.

(** A second step called [lint]. *)
Definition relint : WorkflowStep :=
  {| step_type := "test_generation"; step_name := "lint";
     step_description := "tests for the linter"; step_parameters := [] |}.

Definition ci : Workflow :=
  {| wf_name := "ci"; wf_description := "checks on every commit";
     wf_steps := [lint; ship; unit_tests] |}.

Definition twice : Workflow :=
  {| wf_name := "twice"; wf_description := "two steps of one name";
     wf_steps := [lint; ship; relint] |}.

Definition manager : WorkflowManager :=
  {| workflows_dir := "/home/dev/.devchat/workflows" |}.

(** A disk with one steps file per example, and the disk after the two
    workflows were created from them. *)
Definition disk : gmap string value :=
  <["ci-steps.yaml" := Workflow_dict ci]>
    (<["twice-steps.yaml" := Workflow_dict twice]> ∅).

Definition stored : gmap string value :=
  <[workflow_file manager "ci" := Workflow_dict ci]>
    (<[workflow_file manager "twice" := Workflow_dict twice]> disk).

(** *** [list_workflows]

    The directory of the manager holds regular files only; its entries
    are the files of the disk whose path is the directory, a separator and
    a name without separator. *)

(** [s] without its beginning [p], when it begins with [p]. *)
Fixpoint strip_prefix (p s : string) : option string :=
  match p with
  | EmptyString => Some s
  | String a p' =>
      match s with
      | EmptyString => None
      | String b s' => if Ascii.eqb a b then strip_prefix p' s' else None
      end
  end.

(** [s.endswith(suffix)] *)
Fixpoint ends_with (suffix s : string) : bool :=
  String.eqb s suffix ||
  match s with
  | EmptyString => false
  | String _ rest => ends_with suffix rest
  end.

(** The name of the entry of [dir] that [path] is, when it is one. *)
Definition entry_of (dir path : string) : option string :=
  match strip_prefix (dir +:+ "/") path with
  | Some name =>
      if String.eqb name "" || occurs_in "/" name then None else Some name
  | None => None
  end.

(** [s] cut at its last dot: what is before and what is after. *)
Fixpoint split_last_dot (s : string) : option (string * string) :=
  match s with
  | EmptyString => None
  | String c rest =>
      match split_last_dot rest with
      | Some (before, after) => Some (String c before, after)
      | None => if Ascii.eqb c "."%char then Some (EmptyString, rest) else None
      end
  end.

(** [Path(name).stem]: the name without its last suffix; a dot that starts
    or ends the name does not begin a suffix. *)
Definition stem (name : string) : string :=
  match split_last_dot name with
  | Some (before, after) =>
      if String.eqb before "" || String.eqb after "" then name else before
  | None => name
  end.

(** The name [list_workflows] gives for a path of the disk: the stem of
    an entry of the directory that matches [*.yaml]. *)
Definition listed_name (dir path : string) : option string :=
  match entry_of dir path with
  | Some name => if ends_with ".yaml" name then Some (stem name) else None
  | None => None
  end.

(** [list_workflows(self)].  The order in which a directory is gone
    through is not specified; here it is that of the paths of the disk. *)
Definition list_workflows (self : WorkflowManager) (fs : gmap string value)
  : list string :=
  omap (listed_name (workflows_dir self)) (map fst (map_to_list fs)).

End Core.

(** ** The command-line workflow manager: [_cli/workflow/manager.py] *)

Module Cli.
Import Py.
#[local] Open Scope res_scope.
#[local] Open Scope run_scope.

(** class [WorkflowManager].  [__init__] assigns [config_path] and
    [workflows]; no statement of the class assigns [workflows_dir], which
    [create_workflow], [update_workflow] and [delete_workflow] read: [None]
    is the attribute missing, [Some dir] an object that was given one from
    outside the class. *)
Record WorkflowManager : Type := {
  config_path : string;
  workflows : value;
  workflows_dir : option string
}.

Definition set_workflows (self : WorkflowManager) (w : value) : WorkflowManager :=
  {| config_path := config_path self; workflows := w;
     workflows_dir := workflows_dir self |}.

(** [_load_workflows]: the value of [self.workflows] afterwards.  An
    exception (here: [len] of a document that has no length) resets it. *)
Definition _load_workflows (fs : gmap string value) (path : string) : value :=
  match fs !! path with
  | None => VDict []
  | Some document =>
      let loaded := if truthy document then document else VDict [] in
      match py_len loaded with
      | Ok _ => loaded
      | Raise _ => VDict []
      end
  end.

(** [WorkflowManager(config_path)], for the home directory [home]. *)
Definition init (home : string) (fs : gmap string value)
  (path : option string) : WorkflowManager :=
  let chosen :=
    match path with
    | Some p => if String.eqb p "" then home +:+ "/.devchat/workflows.yaml" else p
    | None => home +:+ "/.devchat/workflows.yaml"
    end in
  {| config_path := chosen; workflows := _load_workflows fs chosen;
     workflows_dir := None |}.

(** [_save_workflows]: the file system afterwards; an exception is logged
    and goes no further. *)
Definition _save_workflows (self : WorkflowManager) (fs : gmap string value)
  : gmap string value :=
  <[config_path self := workflows self]> fs.

(** [add_workflow(self, name, workflow)] *)
Definition add_workflow (self : WorkflowManager) (fs : gmap string value)
  (name : string) (workflow : value)
  : res (WorkflowManager * gmap string value) :=
  let? updated := py_setitem (workflows self) name workflow in
  let self' := set_workflows self updated in
  Ok (self', _save_workflows self' fs).

(** [remove_workflow(self, name)] *)
Definition remove_workflow (self : WorkflowManager) (fs : gmap string value)
  (name : string) : res (WorkflowManager * gmap string value) :=
  let? present := py_contains name (workflows self) in
  if (present : bool) then
    let? updated := py_delitem (workflows self) name in
    let self' := set_workflows self updated in
    Ok (self', _save_workflows self' fs)
  else Ok (self, fs).

(** [get_workflow(self, name)]: [None] when there is no such workflow. *)
Definition get_workflow (self : WorkflowManager) (name : string) : res value :=
  py_get (workflows self) name VNone.

(** [list_workflows(self)] *)
Definition list_workflows (self : WorkflowManager) : res (list string) :=
  py_keys (workflows self).

(** The three handlers of [execute_workflow] have an empty body. *)
Definition _execute_code_analysis (step : value) (kwargs : pydict value) : value :=
  VNone.
Definition _execute_test_generation (step : value) (kwargs : pydict value) : value :=
  VNone.
Definition _execute_refactoring (step : value) (kwargs : pydict value) : value :=
  VNone.

(** [handler(step, **kwargs)]: a keyword called [step] clashes with the
    parameter of that name, and the call raises before the handler is
    entered. *)
Definition answer (name : string) (handler : value -> pydict value -> value)
  (step : value) (kwargs : pydict value) : res value :=
  if dict_mem "step" kwargs
  then Raise (TypeError "got multiple values for argument 'step'" name)
  else Ok (handler step kwargs).

(** The body of the loop of [execute_workflow]. *)
Definition execute_step (kwargs : pydict value) (step : value)
  : M (pydict value) unit :=
  let* step_type := lift (py_get step "type" VNone) in
  if is_str step_type "code_analysis" then
    let* outcome :=
      call "_execute_code_analysis" [step; VDict kwargs]
        (answer "_execute_code_analysis" _execute_code_analysis step kwargs) in
    store "analysis" outcome
  else if is_str step_type "test_generation" then
    let* outcome :=
      call "_execute_test_generation" [step; VDict kwargs]
        (answer "_execute_test_generation" _execute_test_generation
           step kwargs) in
    store "tests" outcome
  else if is_str step_type "refactoring" then
    let* outcome :=
      call "_execute_refactoring" [step; VDict kwargs]
        (answer "_execute_refactoring" _execute_refactoring step kwargs) in
    store "refactoring" outcome
  else ret tt.

(** [execute_workflow(self, name, **kwargs)]: an exception of the loop is
    logged and raised again. *)
Definition execute_workflow (self : WorkflowManager) (name : string)
  (kwargs : pydict value) : res (pydict value) * list event :=
  match get_workflow self name with
  | Raise e => (Raise e, [])
  | Ok workflow =>
      if negb (truthy workflow) then
        (Raise (ValueError ("Workflow '" +:+ name +:+ "' not found")), [])
      else
        let loop :=
          let* listed := lift (py_get workflow "steps" (VList [])) in
          let* steps := lift (py_iter listed) in
          for_each steps (execute_step kwargs) in
        match loop (Frame [] []) with
        | (Ok _, f) => (Ok (results f), trace f)
        | (Raise e, f) => (Raise e, trace f)
        end
  end.

(** [os.path.join(dir, p)] *)
Definition os_path_join (dir p : string) : string :=
  if String.prefix "/" p then p
  else if String.eqb dir "" then p
  else if String.eqb (String.substring (String.length dir - 1) 1 dir) "/"
       then dir +:+ p
       else dir +:+ "/" +:+ p.

(** [self.workflows_dir], an attribute the object may not have. *)
Definition get_workflows_dir (self : WorkflowManager) : res string :=
  match workflows_dir self with
  | Some dir => Ok dir
  | None => Raise (AttributeError "WorkflowManager" "workflows_dir")
  end.

(** [create_workflow(self, name, description, steps)]; [created] and
    [modified] are the two readings of the clock. *)
Definition create_workflow (self : WorkflowManager) (fs : gmap string value)
  (name description : string) (steps : value) (created modified : string)
  : res (bool * gmap string value) :=
  let? dir := get_workflows_dir self in
  let workflow_path := os_path_join dir (name +:+ ".yml") in
  match fs !! workflow_path with
  | Some _ => Ok (false, fs)
  | None =>
      let workflow :=
        VDict [("name", VStr name);
               ("description", VStr description);
               ("steps", if truthy steps then steps else VList []);
               ("created_at", VStr created);
               ("modified_at", VStr modified)] in
      Ok (true, <[workflow_path := workflow]> fs)
  end.


(** What [run_workflow] calls outside the class.  Each call answers or
    raises; [exn_text] is [str(e)]. *)
Record collaborators : Type := {
  os_path_exists : value -> res bool;
  CodeAnalyzer_new : res unit;
  analyze_complexity : value -> res value;
  AIEngine_new : res unit;
  get_code_assistance : value -> value -> res value;
  generate_tests : value -> res value;
  exn_text : exn -> string
}.

Definition entry (step : string) (payload : value) : value :=
  VDict [("step", VStr step); ("results", payload)].

(** [file and os.path.exists(file)], as the test of an [if]. *)
Definition file_exists (ext : collaborators) (file : value) : res bool :=
  if truthy file then os_path_exists ext file else Ok false.

(** The body of the loop of [run_workflow]. *)
Definition run_step (ext : collaborators) (context : pydict value) (step : value)
  : M (list value) unit :=
  let* step_type := lift (py_get step "type" VNone) in
  let* step_config := lift (py_get step "config" (VDict [])) in
  if is_str step_type "analyze" then
    let* file := lift (py_get step_config "file" VNone) in
    let* found := lift (file_exists ext file) in
    if (found : bool) then
      let* _ := call "CodeAnalyzer" [] (CodeAnalyzer_new ext) in
      let* analysis := call "analyze_complexity" [file] (analyze_complexity ext file) in
      append (entry "analyze" analysis)
    else ret tt
  else if is_str step_type "assist" then
    let* query := lift (py_get step_config "query" VNone) in
    if truthy query then
      let* _ := call "AIEngine" [] (AIEngine_new ext) in
      let* code := lift (py_get (VDict context) "code" VNone) in
      let* response :=
        call "get_code_assistance" [query; code]
          (get_code_assistance ext query code) in
      append (entry "assist" response)
    else ret tt
  else if is_str step_type "test" then
    let* file := lift (py_get step_config "file" VNone) in
    let* found := lift (file_exists ext file) in
    if (found : bool) then
      let* _ := call "AIEngine" [] (AIEngine_new ext) in
      let* tests := call "generate_tests" [file] (generate_tests ext file) in
      append (entry "test" tests)
    else ret tt
  else ret tt.

Definition not_found : value :=
  VDict [("success", VBool false); ("error", VStr "Workflow not found")].

Definition success (name : string) (results : list value) : value :=
  VDict [("success", VBool true); ("workflow", VStr name);
         ("results", VList results)].

Definition failure (error : string) (partial_results : list value) : value :=
  VDict [("success", VBool false); ("error", VStr error);
         ("partial_results", VList partial_results)].

(** [context or {}], for the [context: Dict = None] of the signature. *)
Definition or_empty (context : option (pydict value)) : pydict value :=
  match context with
  | Some given => given
  | None => []
  end.

(** The loop of [run_workflow], inside its [try]. *)
Definition run_loop (ext : collaborators) (workflow : value)
  (context : pydict value)
  : M (list value) unit :=
  let* listed := lift (py_get workflow "steps" (VList [])) in
  let* steps := lift (py_iter listed) in
  for_each steps (run_step ext context).

(** [run_workflow(self, name, context)]: what it returns or raises, and the
    trace of the run.  [results] is the list the loop appends to; the
    [except] clause reads it as the exception left it. *)
Definition run_workflow (ext : collaborators) (self : WorkflowManager)
  (name : string) (context : option (pydict value))
  : res value * list event :=
  match get_workflow self name with
  | Raise e => (Raise e, [])
  | Ok workflow =>
      if negb (truthy workflow) then (Ok not_found, [])
      else
        let context := or_empty context in
        match run_loop ext workflow context (Frame [] []) with
        | (Ok _, f) => (Ok (success name (results f)), trace f)
        | (Raise e, f) => (Ok (failure (exn_text ext e) (results f)), trace f)
        end
  end.

(** *** What a step contributes to a run

    The body of the loop only ever appends to [results] and to the trace
    (lemma [run_step_local] below), so a step is described by what it does
    on its own, from an empty list. *)
Definition alone (ext : collaborators) (context : pydict value)
  (step : value)
  : res unit * frame (list value) :=
  run_step ext context step (Frame [] []).

Definition completes (ext : collaborators) (context : pydict value)
  (step : value) : bool :=
  match fst (alone ext context step) with
  | Ok _ => true
  | Raise _ => false
  end.

Definition step_entries (ext : collaborators) (context : pydict value)
  (step : value)
  : list value :=
  results (snd (alone ext context step)).

Definition step_trace (ext : collaborators) (context : pydict value)
  (step : value)
  : list event :=
  trace (snd (alone ext context step)).

(** The steps a run gets to: all of them up to the first that raises. *)
Fixpoint executed (ext : collaborators) (context : pydict value)
  (steps : list value)
  : list value :=
  match steps with
  | [] => []
  | step :: rest =>
      step :: (if completes ext context step then executed ext context rest
               else [])
  end.

(** The keys [execute_workflow] records under. *)
Definition kinds : list string := ["analysis"; "tests"; "refactoring"].

(** The outcome of the loop: the first exception, if any. *)
Fixpoint first_error (ext : collaborators) (context : pydict value)
  (steps : list value) : res unit :=
  match steps with
  | [] => Ok tt
  | step :: rest =>
      match fst (alone ext context step) with
      | Ok _ => first_error ext context rest
      | Raise e => Raise e
      end
  end.

(** *** A running example *)
Definition analyze_step : value :=
  VDict [("type", VStr "analyze"); ("config", VDict [("file", VStr "a.py")])].

Definition assist_step : value :=
  VDict [("type", VStr "assist"); ("config", VDict [("query", VStr "why?")])].

Definition deploy_step : value :=
  VDict [("type", VStr "deploy"); ("name", VStr "ship")].

(** A manager, as [__init__] leaves it, whose store holds the workflow
    [ci] with the given steps. *)
Definition holding (steps : list value) : WorkflowManager :=
  {| config_path := "/home/dev/.devchat/workflows.yaml";
     workflows :=
       VDict [("ci", VDict [("name", VStr "ci");
                            ("description", VStr "checks");
                            ("steps", VList steps)])];
     workflows_dir := None |}.

(** The same manager after a caller assigned [workflows_dir] to it. *)
Definition with_dir (self : WorkflowManager) (dir : string) : WorkflowManager :=
  {| config_path := config_path self; workflows := workflows self;
     workflows_dir := Some dir |}.

(** Collaborators for the examples: every file exists, the analyzer
    answers, and the engine cannot be built without its key. *)
Definition stub : collaborators :=
  {| os_path_exists := fun _ => Ok true;
     CodeAnalyzer_new := Ok tt;
     analyze_complexity := fun _ => Ok (VDict [("num_functions", VInt 1)]);
     AIEngine_new := Raise (External "TypeError" "missing api_key");
     get_code_assistance := fun _ _ => Ok (VStr "advice");
     generate_tests := fun _ => Ok (VStr "tests");
     exn_text :=
       fun e => match e with
                | External _ msg | ValueError msg | FileNotFoundError msg => msg
                | AttributeError t a => t +:+ " has no attribute " +:+ a
                | TypeError what t => t +:+ ": " +:+ what
                | KeyError k => k
                | ValidationError m f => m +:+ "." +:+ f
                end |}.

(** An entry of a run: the kind of step and the payload of its handler. *)
Definition is_entry (e : value) : Prop :=
  exists kind payload,
    e = entry kind payload /\ In kind ["analyze"; "assist"; "test"].

(** *** [update_workflow] *)

(** [d.update(updates)] for two dicts: the bindings of [updates] are
    assigned in turn. *)
Definition dict_update {V : Type} (updates d : pydict V) : pydict V :=
  fold_left (fun acc binding => dict_set (fst binding) (snd binding) acc)
    updates d.

(** [v.update(updates)]: only a [dict] has the method. *)
Definition py_update (v : value) (updates : pydict value) : res value :=
  match v with
  | VDict d => Ok (VDict (dict_update updates d))
  | _ => Raise (AttributeError (type_name v) "update")
  end.

(** [update_workflow(self, name, updates)], with the reading [modified] of
    the clock: what it returns or raises, and the manager and the file
    system it leaves.  The record it updates is the object the store
    holds, so the store sees the update as soon as it is made, before
    [self.workflows_dir] is read.  The store is given as [name] sees it:
    a name that holds the same object as [name] sees the update too, and
    which names do is not part of a store of values.  Nothing makes the
    directory, so the file is written only where it is there. *)
Definition update_workflow (self : WorkflowManager) (fs : gmap string value)
  (name : string) (updates : pydict value) (modified : string)
  : res bool * WorkflowManager * gmap string value :=
  match get_workflow self name with
  | Raise e => (Raise e, self, fs)
  | Ok workflow =>
      if negb (truthy workflow) then (Ok false, self, fs)
      else
        match (let? merged := py_update workflow updates in
               py_setitem merged "modified_at" (VStr modified)) with
        | Raise e => (Raise e, self, fs)
        | Ok stamped =>
            let self' :=
              match py_setitem (workflows self) name stamped with
              | Ok held => set_workflows self held
              | Raise _ => self
              end in
            match get_workflows_dir self' with
            | Raise e => (Raise e, self', fs)
            | Ok dir =>
                let path := os_path_join dir (name +:+ ".yml") in
                if Disk.parent_exists fs path
                then (Ok true, self', <[path := stamped]> fs)
                else (Raise (Disk.no_such_file path), self', fs)
            end
        end
  end.

End Cli.

(** ** The configuration manager: [core/config/config.py] *)

Module Conf.
Import Py.
#[local] Open Scope res_scope.

(** class [Config(BaseModel)].  Assignment to a field is not validated,
    so a field holds whatever was last assigned to it. *)
Record Config : Type := {
  model : value;
  temperature : value;
  max_tokens : value;
  api_key : value;
  huggingface_token : value
}.

(** [Config()] *)
Definition Config_default : Config :=
  {| model := VStr "gpt-4"; temperature := VFloat "0.7";
     max_tokens := VInt 2000; api_key := VNone; huggingface_token := VNone |}.

(** [config.dict()] *)
Definition Config_dict (c : Config) : value :=
  VDict [("model", model c); ("temperature", temperature c);
         ("max_tokens", max_tokens c); ("api_key", api_key c);
         ("huggingface_token", huggingface_token c)].

(** The attributes an instance has besides its fields (the methods and
    class attributes it inherits from [BaseModel]), and what assigning to
    one of them does. *)
Class BaseModel : Type := {
  inherited : string -> bool;
  setattr_inherited : Config -> string -> value -> res Config
}.

(** An instance without a single inherited attribute. *)
Definition bare : BaseModel :=
  {| inherited := fun _ => false;
     setattr_inherited := fun _ key _ => Raise (AttributeError "Config" key) |}.

Section Manager.
Context `{BaseModel}.

Definition is_field (key : string) : bool :=
  String.eqb key "model" || String.eqb key "temperature" ||
  String.eqb key "max_tokens" || String.eqb key "api_key" ||
  String.eqb key "huggingface_token".

(** [hasattr(config, key)] *)
Definition hasattr (c : Config) (key : string) : bool :=
  is_field key || inherited key.

(** [setattr(config, key, value)] *)
Definition setattr (c : Config) (key : string) (v : value) : res Config :=
  if String.eqb key "model" then
    Ok {| model := v; temperature := temperature c; max_tokens := max_tokens c;
          api_key := api_key c; huggingface_token := huggingface_token c |}
  else if String.eqb key "temperature" then
    Ok {| model := model c; temperature := v; max_tokens := max_tokens c;
          api_key := api_key c; huggingface_token := huggingface_token c |}
  else if String.eqb key "max_tokens" then
    Ok {| model := model c; temperature := temperature c; max_tokens := v;
          api_key := api_key c; huggingface_token := huggingface_token c |}
  else if String.eqb key "api_key" then
    Ok {| model := model c; temperature := temperature c;
          max_tokens := max_tokens c; api_key := v;
          huggingface_token := huggingface_token c |}
  else if String.eqb key "huggingface_token" then
    Ok {| model := model c; temperature := temperature c;
          max_tokens := max_tokens c; api_key := api_key c;
          huggingface_token := v |}
  else setattr_inherited c key v.

(** class [ConfigManager] *)
Record ConfigManager : Type := {
  config_dir : string;
  config_file : string;
  config : Config
}.

(** [ConfigManager()], for the home directory [home]. *)
Definition init (home : string) : ConfigManager :=
  {| config_dir := home +:+ "/.devchat";
     config_file := home +:+ "/.devchat/config.yaml";
     config := Config_default |}.

(** [save_config(self)]: the file system after a save that finds the
    directory of the file. *)
Definition save_config (self : ConfigManager) (fs : gmap string value)
  : gmap string value :=
  <[config_file self := Config_dict (config self)]> fs.

(** [set(self, key, value)]: the manager and the file system afterwards
    ([val] is the argument [value], a string).  Only [setup] makes the
    directory of the file: where it is missing, [save_config] raises when
    it opens the file, after the attribute was assigned. *)
Definition set (self : ConfigManager) (fs : gmap string value)
  (key val : string) : res (ConfigManager * gmap string value) :=
  if hasattr (config self) key then
    let? c := setattr (config self) key (VStr val) in
    let self' :=
      {| config_dir := config_dir self; config_file := config_file self;
         config := c |} in
    if Disk.parent_exists fs (config_file self')
    then Ok (self', save_config self' fs)
    else Raise (Disk.no_such_file (config_file self'))
  else Ok (self, fs).


End Manager.

(** *** Reading the configuration *)

(** What [getattr(config, key, None)] gives: the value of a field, a
    member the instance inherits from [BaseModel], or [None]. *)
Inductive attribute : Type :=
| Value (v : value)
| Member (name : string).

(** What pydantic does to the value given for a field annotated [str],
    [float] or [int].  A value of the annotated type is taken as it is;
    which other values are coerced and which are refused is left open. *)
Class Validators : Type := {
  as_str : value -> option value;
  as_float : value -> option value;
  as_int : value -> option value;
  as_str_str : forall s, as_str (VStr s) = Some (VStr s);
  as_float_float : forall r, as_float (VFloat r) = Some (VFloat r);
  as_int_int : forall z, as_int (VInt z) = Some (VInt z)
}.

(** The validators that accept nothing else. *)
Definition exact : Validators :=
  {| as_str := fun v => match v with VStr _ => Some v | _ => None end;
     as_float := fun v => match v with VFloat _ => Some v | _ => None end;
     as_int := fun v => match v with VInt _ => Some v | _ => None end;
     as_str_str := fun _ => eq_refl;
     as_float_float := fun _ => eq_refl;
     as_int_int := fun _ => eq_refl |}.

Section Reading.
Context `{BaseModel} `{Validators}.

(** The value of the field [key], when [key] is a field. *)
Definition field (c : Config) (key : string) : option value :=
  if String.eqb key "model" then Some (model c)
  else if String.eqb key "temperature" then Some (temperature c)
  else if String.eqb key "max_tokens" then Some (max_tokens c)
  else if String.eqb key "api_key" then Some (api_key c)
  else if String.eqb key "huggingface_token" then Some (huggingface_token c)
  else None.

(** [get(self, key)] *)
Definition get (self : ConfigManager) (key : string) : attribute :=
  match field (config self) key with
  | Some v => Value v
  | None => if inherited key then Member key else Value VNone
  end.

(** [setup(self)]: the file system afterwards.  It makes the directory
    before it saves. *)
Definition setup (self : ConfigManager) (fs : gmap string value)
  : gmap string value :=
  match fs !! config_file self with
  | Some _ => fs
  | None => save_config self fs
  end.

(** A field annotated [Optional[str]]. *)
Definition as_optional_str (v : value) : option value :=
  match v with
  | VNone => Some VNone
  | _ => as_str v
  end.

(** The value of a field from the keyword arguments: its default when the
    key is absent, what the validator makes of the value otherwise.  Of the
    fields pydantic refuses, the exception here names the first. *)
Definition from_kwargs (kwargs : pydict value) (key : string)
  (validator : value -> option value) (default : value) : res value :=
  match dict_get key kwargs with
  | None => Ok default
  | Some v =>
      match validator v with
      | Some checked => Ok checked
      | None => Raise (ValidationError "Config" key)
      end
  end.

(** The constructor of [Config] applied to the keyword arguments
    [kwargs]; keys that are not fields are ignored. *)
Definition Config_init (kwargs : pydict value) : res Config :=
  let? m := from_kwargs kwargs "model" as_str (VStr "gpt-4") in
  let? t := from_kwargs kwargs "temperature" as_float (VFloat "0.7") in
  let? n := from_kwargs kwargs "max_tokens" as_int (VInt 2000) in
  let? k := from_kwargs kwargs "api_key" as_optional_str VNone in
  let? h := from_kwargs kwargs "huggingface_token" as_optional_str VNone in
  Ok {| model := m; temperature := t; max_tokens := n; api_key := k;
        huggingface_token := h |}.

(** [load_config(self)]: the manager afterwards. *)
Definition load_config (self : ConfigManager) (fs : gmap string value)
  : res ConfigManager :=
  match fs !! config_file self with
  | None => Ok self
  | Some document =>
      match (if truthy document then document else VDict []) with
      | VDict kwargs =>
          let? c := Config_init kwargs in
          Ok {| config_dir := config_dir self; config_file := config_file self;
                config := c |}
      | other =>
          Raise (TypeError "argument after ** must be a mapping"
                   (type_name other))
      end
  end.

(** A configuration whose fields hold values of their annotated types. *)
Definition well_typed (c : Config) : Prop :=
  (exists s, model c = VStr s) /\
  (exists r, temperature c = VFloat r) /\
  (exists z, max_tokens c = VInt z) /\
  (api_key c = VNone \/ exists s, api_key c = VStr s) /\
  (huggingface_token c = VNone \/ exists s, huggingface_token c = VStr s).

End Reading.
End Conf.

(** ** The workflow commands: [_cli/workflow.py]

    Each command builds its own manager from the disk, so a command is a
    function of the home directory, the disk and its arguments.  What it
    shows is the list of its calls to [click.echo]; an exception [e] that
    reaches its [except] clause comes out as [click.ClickException(str(e))],
    given here by [e] itself. *)

Module WorkflowCmd.
Import Py.
#[local] Open Scope res_scope.

(** A part of a formatted string: literal text, [str(v)] of a value, or a
    number. *)
Inductive piece : Type :=
| Text (s : string)
| Str (v : value)
| Num (n : nat).

(** One call of [click.echo]: a formatted string, or a value as it is. *)
Inductive echoed : Type :=
| Line (pieces : list piece)
| Raw (v : value).

Definition newline : string := String (Ascii.ascii_of_nat 10) EmptyString.

(** [raise click.ClickException(...)] inside the [try] of a command. *)
Definition not_found (name : string) : exn :=
  External "ClickException" ("Workflow '" +:+ name +:+ "' not found").

(** The store file of a manager built without a path. *)
Definition store_path (home : string) : string :=
  home +:+ "/.devchat/workflows.yaml".

(** [with open(path, 'r') as f: yaml.safe_load(f)] *)
Definition load (fs : gmap string value) (path : string) : res value :=
  match fs !! path with
  | Some document => Ok document
  | None => Raise (External "FileNotFoundError" path)
  end.

(** [description or f"Workflow: {name}"] *)
Definition described (name : string) (description : option string) : string :=
  match description with
  | Some text => if String.eqb text "" then "Workflow: " +:+ name else text
  | None => "Workflow: " +:+ name
  end.

(** The steps of a new workflow: the empty list, or what the file given
    with [--steps] holds. *)
Definition load_steps (fs : gmap string value) (steps : option string)
  : res value :=
  match steps with
  | Some path => if String.eqb path "" then Ok (VList []) else load fs path
  | None => Ok (VList [])
  end.

(** [create(name, description, steps)] *)
Definition create (home : string) (fs : gmap string value) (name : string)
  (description steps : option string)
  : list echoed * option exn * gmap string value :=
  let manager := Cli.init home fs None in
  match
    (let? listed := load_steps fs steps in
     Cli.add_workflow manager fs name
       (VDict [("name", VStr name);
               ("description", VStr (described name description));
               ("steps", listed)]))
  with
  | Raise e => ([], Some e, fs)
  | Ok (_, fs') => ([Line [Text ("Created workflow: " +:+ name)]], None, fs')
  end.

(** [remove(name)] *)
Definition remove (home : string) (fs : gmap string value) (name : string)
  : list echoed * option exn * gmap string value :=
  let manager := Cli.init home fs None in
  match Cli.remove_workflow manager fs name with
  | Raise e => ([], Some e, fs)
  | Ok (_, fs') => ([Line [Text ("Removed workflow: " +:+ name)]], None, fs')
  end.

(** The loop of [list]: three lines per workflow, up to the first
    exception. *)
Fixpoint describe (manager : Cli.WorkflowManager) (names : list string)
  : list echoed * option exn :=
  match names with
  | [] => ([], None)
  | name :: rest =>
      match Cli.get_workflow manager name with
      | Raise e => ([], Some e)
      | Ok workflow =>
          let heading := Line [Text (newline +:+ name)] in
          match py_getitem workflow "description" with
          | Raise e => ([heading], Some e)
          | Ok description =>
              let second := Line [Text "Description: "; Str description] in
              match (let? listed := py_getitem workflow "steps" in
                     py_len listed) with
              | Raise e => ([heading; second], Some e)
              | Ok n =>
                  let '(more, failed) := describe manager rest in
                  (heading :: second :: Line [Text "Steps: "; Num n] :: more,
                   failed)
              end
          end
      end
  end.

(** [run(name, file, output)] *)
Definition run (home : string) (fs : gmap string value) (name : string)
  (file output : option string) : list echoed * option exn :=
  let manager := Cli.init home fs None in
  match Cli.get_workflow manager name with
  | Raise e => ([], Some e)
  | Ok workflow =>
      if negb (truthy workflow) then ([], Some (not_found name))
      else
        let given (key : string) (arg : option string) : pydict value :=
          match arg with
          | Some text => if String.eqb text "" then [] else [(key, VStr text)]
          | None => []
          end in
        let kwargs := given "file" file ++ given "output" output in
        match fst (Cli.execute_workflow manager name kwargs) with
        | Raise e => ([], Some e)
        | Ok results =>
            (Line [Text (newline +:+ "Workflow Results:")] ::
             Line [Text "================"] ::
             flat_map
               (fun binding =>
                  [Line [Text (newline +:+ fst binding +:+ ":")];
                   Raw (snd binding)])
               results,
             None)
        end
  end.

(** [update(name, steps_file)].  The steps are assigned on the record the
    store holds, which is then added under [name]; a record that the store
    file writes once for several names (a YAML alias) changes under all of
    them, and the disk is given here as [name] sees it. *)
Definition update (home : string) (fs : gmap string value)
  (name steps_file : string)
  : list echoed * option exn * gmap string value :=
  let manager := Cli.init home fs None in
  match Cli.get_workflow manager name with
  | Raise e => ([], Some e, fs)
  | Ok workflow =>
      if negb (truthy workflow) then ([], Some (not_found name), fs)
      else
        match
          (let? new_steps := load fs steps_file in
           let? changed := py_setitem workflow "steps" new_steps in
           Cli.add_workflow manager fs name changed)
        with
        | Raise e => ([], Some e, fs)
        | Ok (_, fs') =>
            ([Line [Text ("Updated workflow: " +:+ name)]], None, fs')
        end
  end.

(** [list()] *)
Definition list (home : string) (fs : gmap string value)
  : Datatypes.list echoed * option exn :=
  let manager := Cli.init home fs None in
  match Cli.list_workflows manager with
  | Raise e => ([], Some e)
  | Ok [] => ([Line [Text "No workflows found"]], None)
  | Ok names =>
      let '(shown, failed) := describe manager names in
      (Line [Text (newline +:+ "Workflows:")] :: Line [Text "=========="] :: shown,
       failed)
  end.

End WorkflowCmd.

(** ** The configuration commands: [_cli/config.py]

    These commands keep the configuration as a mapping in one file and
    show their answers with [click.echo], as the workflow commands do. *)

Module ConfigCmd.
Import Py.
Import WorkflowCmd (piece, echoed, Text, Str, Num, Line, Raw, newline).
#[local] Open Scope res_scope.

(** [CONFIG_FILE] *)
Definition CONFIG_FILE (home : string) : string :=
  home +:+ "/.devchat/config.yaml".

(** [load_config()] *)
Definition load_config (home : string) (fs : gmap string value) : value :=
  match fs !! CONFIG_FILE home with
  | Some document => if truthy document then document else VDict []
  | None => VDict []
  end.

(** [save_config(config)]: the file system afterwards. *)
Definition save_config (home : string) (fs : gmap string value)
  (config : value) : gmap string value :=
  <[CONFIG_FILE home := config]> fs.

(** [set(key, value)] *)
Definition set (home : string) (fs : gmap string value) (key val : string)
  : list echoed * option exn * gmap string value :=
  match py_setitem (load_config home fs) key (VStr val) with
  | Raise e => ([], Some e, fs)
  | Ok config =>
      ([Line [Text ("Set " +:+ key +:+ " = " +:+ val)]], None,
       save_config home fs config)
  end.

(** [get(key)] *)
Definition get (home : string) (fs : gmap string value) (key : string)
  : list echoed * option exn :=
  match py_get (load_config home fs) key VNone with
  | Raise e => ([], Some e)
  | Ok VNone =>
      ([Line [Text ("Configuration key '" +:+ key +:+ "' not found")]], None)
  | Ok found => ([Raw found], None)
  end.


(** [setup(api_key)] *)
Definition setup (home : string) (fs : gmap string value) (api_key : string)
  : list echoed * option exn * gmap string value :=
  ([Line [Text "Configuration setup complete"]], None,
   save_config home fs
     (VDict [("openai_api_key", VStr api_key); ("model", VStr "gpt-4");
             ("temperature", VFloat "0.7")])).

(** [config.items()] *)
Definition py_items (v : value) : res (pydict value) :=
  match v with
  | VDict d => Ok d
  | _ => Raise (AttributeError (type_name v) "items")
  end.

(** [list()] *)
Definition list (home : string) (fs : gmap string value)
  : Datatypes.list echoed * option exn :=
  let config := load_config home fs in
  if negb (truthy config) then
    ([Line [Text "No configuration values set"]], None)
  else
    let heading :=
      [Line [Text (newline +:+ "Configuration:")]; Line [Text "============="]] in
    match py_items config with
    | Raise e => (heading, Some e)
    | Ok items =>
        (heading ++
         map (fun binding => Line [Text (fst binding +:+ ": "); Str (snd binding)])
           items,
         None)
    end.

End ConfigCmd.

(** ** The analyzer of the core: [core/analysis/analyzer.py]

    The tree [astroid.parse] builds is a node with its children; of the
    class of a node only one thing is asked, whether it is one of [If],
    [For], [While], [TryExcept], [TryFinally]. *)

Module Analysis.

Inductive kind : Type := If | For | While | TryExcept | TryFinally | Other.

#[local] Set Warnings "-register-all".
Inductive node : Type := Node (k : kind) (children : list node).

(** [isinstance(child, (If, For, While, TryExcept, TryFinally))], for an
    astroid that has the five classes. *)
Definition branching (n : node) : bool :=
  match n with
  | Node Other _ => false
  | Node _ _ => true
  end.

(** [_calculate_complexity(self, node)] *)
Fixpoint _calculate_complexity (n : node) : nat :=
  match n with
  | Node _ children =>
      fold_left
        (fun complexity child =>
           (if branching child then complexity + 1 else complexity) +
           _calculate_complexity child)
        children 1
  end.

(** The number of nodes of a tree, and the number of branching nodes
    below its root. *)
Fixpoint size (n : node) : nat :=
  match n with
  | Node _ children => S (list_sum (map size children))
  end.

Fixpoint branches_below (n : node) : nat :=
  match n with
  | Node _ children =>
      list_sum
        (map (fun child =>
                (if branching child then 1 else 0) + branches_below child)
           children)
  end.

(** The metrics [analyze_file] builds: four counts, and the complexity or
    the message of the exception its computation raised. *)
Record metrics : Type := {
  lines_of_code : nat;
  functions : nat;
  classes : nat;
  imports : nat;
  complexity : nat + string
}.

(** [s.lower()], as far as the letters [A] to [Z] go. *)
Definition lower_char (c : ascii) : ascii :=
  let n := nat_of_ascii c in
  if (65 <=? n) && (n <=? 90) then ascii_of_nat (n + 32) else c.

Fixpoint lower (s : string) : string :=
  match s with
  | EmptyString => EmptyString
  | String c rest => String (lower_char c) (lower rest)
  end.

Definition break_down : string :=
  "Consider breaking down complex functions into smaller, more manageable pieces".
Definition split_file : string :=
  "Consider splitting the file into multiple modules".
Definition organize_imports : string :=
  "Consider organizing imports and removing unused ones".
Definition fix_errors : string := "Fix the errors reported by pylint".

(** [_generate_suggestions(self, metrics, pylint_results)] *)
Definition _generate_suggestions (m : metrics) (pylint_results : string)
  : list string :=
  (match complexity m with
   | inl c => if 10 <? c then [break_down] else []
   | inr _ => []
   end) ++
  (if 20 <? functions m then [split_file] else []) ++
  (if 10 <? imports m then [organize_imports] else []) ++
  (if Py.occurs_in "error" (lower pylint_results) then [fix_errors] else []).

End Analysis.

(** * Properties *)

(** ** Dictionaries *)

Section DictFacts.
Import Py.
Context {V : Type}.
Implicit Types (k : string) (v : V) (d : pydict V).

Lemma dict_get_set_eq k v d : dict_get k (dict_set k v d) = Some v.
Proof.
  induction d as [|[k' v'] d IH]; simpl.
  - by rewrite String.eqb_refl.
  - destruct (String.eqb k' k) eqn:E; simpl.
    + by rewrite String.eqb_refl.
    + by rewrite E.
Qed.

Lemma dict_get_set_ne k k' v d :
  k <> k' -> dict_get k' (dict_set k v d) = dict_get k' d.
Proof.
  intros Hne. apply String.eqb_neq in Hne.
  induction d as [|[k0 v0] d IH]; simpl.
  - by rewrite Hne.
  - destruct (String.eqb k0 k) eqn:E; simpl.
    + apply String.eqb_eq in E. subst k0. by rewrite Hne.
    + by rewrite IH.
Qed.

Lemma dict_mem_keys k d : dict_mem k d = true <-> In k (dict_keys d).
Proof.
  unfold dict_mem. induction d as [|[k0 v0] d IH]; simpl.
  - split; [discriminate | tauto].
  - destruct (String.eqb k0 k) eqn:E.
    + apply String.eqb_eq in E. tauto.
    + apply String.eqb_neq in E. tauto.
Qed.

Lemma dict_get_None_keys k d : dict_get k d = None <-> ~ In k (dict_keys d).
Proof.
  rewrite <- dict_mem_keys. unfold dict_mem.
  destruct (dict_get k d); naive_solver.
Qed.

Lemma dict_keys_set k v d :
  dict_keys (dict_set k v d) =
  if dict_mem k d then dict_keys d else dict_keys d ++ [k].
Proof.
  unfold dict_mem. induction d as [|[k0 v0] d IH]; simpl; [done|].
  destruct (String.eqb k0 k) eqn:E; simpl.
  - apply String.eqb_eq in E. by subst.
  - rewrite IH. by destruct (dict_get k d).
Qed.

Lemma dict_set_NoDup k v d :
  NoDup (dict_keys d) -> NoDup (dict_keys (dict_set k v d)).
Proof.
  intros Hd. rewrite dict_keys_set.
  destruct (dict_mem k d) eqn:E; [done|].
  apply NoDup_app. split_and!; [done| |apply NoDup_singleton].
  intros x Hx Hk. apply list_elem_of_singleton in Hk. subst x.
  apply list_elem_of_In, dict_mem_keys in Hx. congruence.
Qed.

Lemma dict_get_del_eq k d :
  NoDup (dict_keys d) -> dict_get k (dict_del k d) = None.
Proof.
  induction d as [|[k0 v0] d IH]; simpl; [done|].
  intros Hd. apply NoDup_cons in Hd as [Hk0 Hd].
  destruct (String.eqb k0 k) eqn:E; simpl.
  - apply String.eqb_eq in E. subst k0.
    apply dict_get_None_keys. by rewrite <- list_elem_of_In.
  - rewrite E. by apply IH.
Qed.

Lemma dict_get_del_ne k k' d :
  k <> k' -> dict_get k' (dict_del k d) = dict_get k' d.
Proof.
  intros Hne. apply String.eqb_neq in Hne.
  induction d as [|[k0 v0] d IH]; simpl; [done|].
  destruct (String.eqb k0 k) eqn:E; simpl.
  - apply String.eqb_eq in E. subst k0. by rewrite Hne.
  - by rewrite IH.
Qed.

(** A key that is bound is bound once when no key is repeated. *)
Lemma dict_single_entry k v d :
  NoDup (dict_keys d) ->
  dict_get k d = Some v ->
  length (List.filter (fun entry => String.eqb (fst entry) k) d) = 1.
Proof.
  induction d as [|[k0 v0] d IH]; cbn; [done|].
  intros Hnd. apply NoDup_cons in Hnd as [Hfresh Hnd].
  destruct (String.eqb k0 k) eqn:E; [|by apply IH].
  intros _. apply String.eqb_eq in E. subst k0. cbn. f_equal.
  apply length_zero_iff_nil.
  rewrite list_elem_of_In in Hfresh. apply dict_get_None_keys in Hfresh.
  clear -Hfresh. induction d as [|[k1 v1] d IH]; cbn in *; [done|].
  destruct (String.eqb k1 k); [done | by apply IH].
Qed.

End DictFacts.

(** ** Loops *)

Section LoopFacts.
Import Py.
Context {R A : Type}.
Implicit Types (body : A -> M R unit) (f : frame R).

Lemma for_each_app (l1 l2 : list A) body f :
  for_each (l1 ++ l2) body f =
  match for_each l1 body f with
  | (Ok _, f') => for_each l2 body f'
  | (Raise e, f') => (Raise e, f')
  end.
Proof.
  revert f. induction l1 as [|x l1 IH]; intros f; simpl; [done|].
  unfold bind. destruct (body x f) as [[[]|e] f1]; [apply IH | done].
Qed.

Lemma for_each_cons (x : A) (l : list A) body f :
  for_each (x :: l) body f =
  match body x f with
  | (Ok _, f') => for_each l body f'
  | (Raise e, f') => (Raise e, f')
  end.
Proof. reflexivity. Qed.

End LoopFacts.

(** ** The core manager *)

Section CoreFacts.
Import Py Core.
Context `{Pydantic}.
Implicit Types (self : WorkflowManager) (fs : gmap string value).
Implicit Types (step : WorkflowStep) (steps : list WorkflowStep).

(** A step never raises: it records its outcome and logs its events. *)
Lemma run_step_eq file_path step (f : frame (pydict value)) :
  run_step file_path step f =
  (Ok tt,
   Frame (dict_set (step_name step) (step_outcome file_path step) (results f))
         (trace f ++ step_events file_path step)).
Proof.
  unfold run_step, step_events, step_outcome, handler_of.
  destruct (String.eqb (step_type step) "code_analysis");
    [|destruct (String.eqb (step_type step) "test_generation")];
    cbn; unfold store; cbn; by rewrite <- ?app_assoc.
Qed.

Lemma run_steps_eq file_path steps (f : frame (pydict value)) :
  for_each steps (run_step file_path) f =
  (Ok tt,
   Frame (record_all file_path steps (results f))
         (trace f ++ flat_map (step_events file_path) steps)).
Proof.
  revert f. induction steps as [|step steps IH]; intros f.
  - destruct f. cbn. by rewrite app_nil_r.
  - rewrite for_each_cons, run_step_eq, IH. cbn. by rewrite <- app_assoc.
Qed.

Lemma run_workflow_found self fs name file_path workflow :
  get_workflow self fs name = Ok (Some workflow) ->
  run_workflow self fs name file_path =
  (Ok (record_all file_path (wf_steps workflow) []),
   flat_map (step_events file_path) (wf_steps workflow)).
Proof.
  intros Hget. unfold run_workflow. rewrite Hget, run_steps_eq. done.
Qed.

Lemma run_workflow_missing self fs name file_path :
  fs !! workflow_file self name = None ->
  run_workflow self fs name file_path =
  (Raise (ValueError ("Workflow not found: " +:+ name)), []).
Proof.
  intros Hfile. unfold run_workflow, get_workflow. by rewrite Hfile.
Qed.

Lemma record_all_cons file_path step steps (r : pydict value) :
  record_all file_path (step :: steps) r =
  record_all file_path steps
    (dict_set (step_name step) (step_outcome file_path step) r).
Proof. reflexivity. Qed.

(** The keys of [results] after a loop. *)
Lemma record_all_NoDup file_path steps (r : pydict value) :
  NoDup (dict_keys r) -> NoDup (dict_keys (record_all file_path steps r)).
Proof.
  revert r. induction steps as [|step steps IH]; intros r Hr; [done|].
  rewrite record_all_cons. apply IH. by apply dict_set_NoDup.
Qed.

Lemma record_all_keys file_path steps (r : pydict value) :
  NoDup (dict_keys r ++ map step_name steps) ->
  dict_keys (record_all file_path steps r) = dict_keys r ++ map step_name steps.
Proof.
  revert r. induction steps as [|step steps IH]; intros r Hnd.
  - cbn. by rewrite app_nil_r.
  - rewrite record_all_cons. cbn [map] in *.
    assert (Hfresh : dict_mem (step_name step) r = false).
    { apply not_true_iff_false. rewrite dict_mem_keys, <- list_elem_of_In.
      intros Hin. apply NoDup_app in Hnd as (_ & Hdisj & _).
      apply (Hdisj _ Hin). left. }
    rewrite IH; rewrite dict_keys_set, Hfresh, <- ?app_assoc; done.
Qed.

(** The entry under a name is the outcome of the last step so called. *)
Lemma record_all_get file_path steps (r : pydict value) name :
  dict_get name (record_all file_path steps r) =
  match last_named name steps with
  | Some step => Some (step_outcome file_path step)
  | None => dict_get name r
  end.
Proof.
  revert r. induction steps as [|step steps IH]; intros r; [done|].
  rewrite record_all_cons, IH. cbn. destruct (last_named name steps); [done|].
  destruct (String.eqb (step_name step) name) eqn:E.
  - apply String.eqb_eq in E. subst name. apply dict_get_set_eq.
  - apply String.eqb_neq in E. by apply dict_get_set_ne.
Qed.

Lemma last_named_app_None name steps1 steps2 :
  last_named name steps2 = None ->
  last_named name (steps1 ++ steps2) = last_named name steps1.
Proof.
  intros H2. induction steps1 as [|step steps1 IH]; cbn; [done|].
  by rewrite IH.
Qed.

Lemma last_named_None name steps :
  last_named name steps = None <->
  Forall (fun step => step_name step <> name) steps.
Proof.
  induction steps as [|step steps IH]; cbn.
  - split; [constructor | done].
  - rewrite Forall_cons, <- IH.
    destruct (last_named name steps).
    + split; [done | by intros [_ ?]].
    + destruct (String.eqb (step_name step) name) eqn:E.
      * apply String.eqb_eq in E. split; [done | by intros [? _]].
      * apply String.eqb_neq in E. done.
Qed.

Lemma last_named_last name steps1 step steps2 :
  step_name step = name ->
  Forall (fun later => step_name later <> name) steps2 ->
  last_named name (steps1 ++ step :: steps2) = Some step.
Proof.
  intros Hname Hlater. apply last_named_None in Hlater.
  induction steps1 as [|s steps1 IH]; cbn.
  - rewrite Hlater. apply String.eqb_eq in Hname. by rewrite Hname.
  - by rewrite IH.
Qed.

Lemma last_named_NoDup step steps :
  NoDup (map step_name steps) ->
  In step steps ->
  last_named (step_name step) steps = Some step.
Proof.
  intros Hnd Hin. apply in_split in Hin as (pre & post & ->).
  apply last_named_last; [done|].
  rewrite map_app in Hnd. cbn [map] in Hnd.
  apply NoDup_app in Hnd as (_ & _ & Hpost).
  apply NoDup_cons in Hpost as [Hfresh _].
  apply Forall_forall. intros later Hlater Heq. apply Hfresh.
  rewrite <- Heq. apply list_elem_of_fmap. by exists later.
Qed.

End CoreFacts.

(** ** Paths and directories *)

Section DiskFacts.
Import Py Disk.
Implicit Types (fs : gmap string value).

Lemma append_cons x (a b : string) : String x a +:+ b = String x (a +:+ b).
Proof. reflexivity. Qed.

Lemma append_assoc (a b c : string) : (a +:+ b) +:+ c = a +:+ (b +:+ c).
Proof. induction a as [|x a IH]; [done|]. by rewrite !append_cons, IH. Qed.

Lemma occurs_in_slash_cons c s :
  occurs_in "/" (String c s) = Ascii.eqb "/" c || occurs_in "/" s.
Proof.
  cbn [occurs_in String.prefix]. f_equal.
  destruct (ascii_dec "/" c) as [<-|Hne].
  - by destruct s.
  - symmetry. by apply Ascii.eqb_neq.
Qed.

Lemma occurs_in_slash_app a b :
  occurs_in "/" (a +:+ b) = occurs_in "/" a || occurs_in "/" b.
Proof.
  induction a as [|c a IH]; [done|].
  by rewrite append_cons, !occurs_in_slash_cons, IH, orb_assoc.
Qed.

Lemma prefix_app (p s : string) : String.prefix p (p +:+ s) = true.
Proof.
  induction p as [|a p IH].
  - change ("" +:+ s) with s. by destruct s.
  - rewrite append_cons. cbn [String.prefix].
    by destruct (ascii_dec a a).
Qed.



Lemma split_last_sep_Some path dir name :
  split_last_sep path = Some (dir, name) -> path = dir +:+ "/" +:+ name.
Proof.
  revert dir. induction path as [|c path IH]; intros dir; [done|].
  cbn [split_last_sep].
  destruct (split_last_sep path) as [[dir' name']|].
  - intros [= <- <-]. by rewrite append_cons, <- (IH dir').
  - destruct (Ascii.eqb c "/") eqn:E; [|done].
    apply Ascii.eqb_eq in E. by intros [= <- <-]; subst c.
Qed.

(** A directory that holds a file is there. *)
Lemma is_dir_holds fs dir rest document :
  fs !! (dir +:+ "/" +:+ rest) = Some document -> is_dir fs dir = true.
Proof.
  intros Hfile. unfold is_dir. apply existsb_exists.
  exists (dir +:+ "/" +:+ rest). split.
  - apply in_map_iff. exists (dir +:+ "/" +:+ rest, document). split; [done|].
    apply list_elem_of_In. by apply elem_of_map_to_list.
  - by rewrite <- append_assoc, prefix_app.
Qed.

(** The directory of a file of the disk is there. *)
Lemma parent_exists_file fs path document :
  fs !! path = Some document -> parent_exists fs path = true.
Proof.
  intros Hfile. unfold parent_exists.
  destruct (split_last_sep path) as [[dir name]|] eqn:Hsplit; [|done].
  apply split_last_sep_Some in Hsplit. subst path.
  by rewrite (is_dir_holds _ _ _ _ Hfile), orb_true_r.
Qed.

End DiskFacts.

(** ** The core store: what is written is what is read *)

Section CoreStore.
Import Py Core.
Context `{Pydantic}.
Implicit Types (self : WorkflowManager) (fs : gmap string value).
Implicit Types (step : WorkflowStep) (steps : list WorkflowStep).
Implicit Types (workflow : Workflow).



Lemma can_create_file self fs path document :
  fs !! path = Some document -> can_create self fs path = true.
Proof.
  intros Hfile. unfold can_create.
  destruct (Disk.split_last_sep path) as [[dir name]|]; [|done].
  by rewrite (parent_exists_file _ _ _ Hfile), orb_true_r.
Qed.

Lemma WorkflowStep_init_dict step :
  WorkflowStep_kwargs (WorkflowStep_dict step) = Ok step.
Proof.
  destruct step as [type name description parameters].
  cbn. unfold WorkflowStep_init, str_field. cbn.
  by rewrite !str_validator_str, dict_validator_dict.
Qed.

Lemma step_item_dict step : step_item (WorkflowStep_dict step) = Ok step.
Proof. apply WorkflowStep_init_dict. Qed.

Lemma map_res_section {A B : Type} (f : A -> res B) (g : B -> A) (l : list B) :
  (forall y, f (g y) = Ok y) -> map_res f (map g l) = Ok l.
Proof.
  intros Hfg. induction l as [|y l IH]; cbn; [done|].
  by rewrite Hfg, IH.
Qed.

Lemma Workflow_init_dict workflow :
  Workflow_kwargs (Workflow_dict workflow) = Ok workflow.
Proof.
  destruct workflow as [name description steps].
  cbn. unfold Workflow_init, str_field. cbn.
  by rewrite !str_validator_str, (map_res_section _ _ _ step_item_dict).
Qed.

(** [create_workflow] on a steps file that lists well-formed steps, when
    the directory of the file of the name is there. *)
Lemma create_workflow_ok self fs name steps_file d description steps :
  can_create self fs (workflow_file self name) = true ->
  fs !! steps_file = Some (VDict d) ->
  dict_get "description" d = Some (VStr description) ->
  dict_get "steps" d = Some (VList (map WorkflowStep_dict steps)) ->
  create_workflow self fs name steps_file =
  Ok (<[workflow_file self name :=
          Workflow_dict {| wf_name := name; wf_description := description;
                           wf_steps := steps |}]> fs).
Proof.
  intros Hdir Hfile Hdesc Hsteps. unfold create_workflow. rewrite Hfile. cbn.
  rewrite Hdesc, Hsteps. cbn.
  rewrite (map_res_section _ _ _ WorkflowStep_init_dict). cbn.
  by rewrite str_validator_str, Hdir.
Qed.

Lemma get_workflow_inserted self fs name workflow :
  get_workflow self (<[workflow_file self name := Workflow_dict workflow]> fs) name
  = Ok (Some workflow).
Proof.
  unfold get_workflow. rewrite lookup_insert_eq.
  by rewrite Workflow_init_dict.
Qed.

(** Whatever [create_workflow] stores, [get_workflow] reads back. *)
Lemma create_then_get self fs fs' name steps_file :
  create_workflow self fs name steps_file = Ok fs' ->
  exists workflow,
    wf_name workflow = name /\
    fs' = <[workflow_file self name := Workflow_dict workflow]> fs /\
    get_workflow self fs' name = Ok (Some workflow).
Proof.
  unfold create_workflow. destruct (fs !! steps_file) as [steps_data|]; [|done].
  destruct (py_get steps_data "description" (VStr "")) as [description|];
    cbn; [|done].
  destruct (py_getitem steps_data "steps") as [listed|]; cbn; [|done].
  destruct (py_iter listed) as [items|]; cbn; [|done].
  destruct (map_res WorkflowStep_kwargs items) as [steps|]; cbn; [|done].
  destruct (str_validator description) as [text|]; cbn; [|done].
  destruct (can_create self fs (workflow_file self name)); [|done].
  intros [= <-]. eexists. split_and!; [|done|apply get_workflow_inserted].
  done.
Qed.

(** A file other than the one written is left as it was. *)
Lemma create_workflow_frame self fs fs' name steps_file path :
  create_workflow self fs name steps_file = Ok fs' ->
  path <> workflow_file self name ->
  fs' !! path = fs !! path.
Proof.
  intros Hcreate Hpath.
  destruct (create_then_get _ _ _ _ _ Hcreate) as (workflow & _ & -> & _).
  by rewrite lookup_insert_ne.
Qed.

(** Creating [W] under its name and reading it back. *)
Lemma create_get_round_trip self fs W steps_file d :
  can_create self fs (workflow_file self (wf_name W)) = true ->
  fs !! steps_file = Some (VDict d) ->
  dict_get "description" d = Some (VStr (wf_description W)) ->
  dict_get "steps" d = Some (VList (map WorkflowStep_dict (wf_steps W))) ->
  exists fs',
    create_workflow self fs (wf_name W) steps_file = Ok fs' /\
    get_workflow self fs' (wf_name W) = Ok (Some W).
Proof.
  intros Hdir Hfile Hdesc Hsteps.
  destruct W as [name description steps]. cbn in *.
  eexists. split; [by eapply create_workflow_ok | apply get_workflow_inserted].
Qed.

End CoreStore.

(** ** The command-line manager: a step only appends *)

Section Locality.
Import Py.

Lemma extend_empty_l g : extend empty g = g.
Proof. by destruct g. Qed.

Lemma extend_empty_r f : extend f empty = f.
Proof. destruct f. unfold extend. cbn. by rewrite !app_nil_r. Qed.

Lemma extend_assoc f g h : extend (extend f g) h = extend f (extend g h).
Proof. unfold extend. cbn. by rewrite !app_assoc. Qed.

Lemma local_ret {A : Type} (a : A) : local (ret a).
Proof. intros f. unfold ret. cbn. by rewrite extend_empty_r. Qed.

Lemma local_lift {A : Type} (r : res A) : local (lift r).
Proof. intros f. unfold lift. cbn. by rewrite extend_empty_r. Qed.

Lemma local_call {A : Type} handler args (answer : res A) :
  local (call handler args answer).
Proof. intros f. unfold call, extend. cbn. by rewrite app_nil_r. Qed.

Lemma local_append entry : local (append entry).
Proof. intros f. reflexivity. Qed.

Lemma local_bind {A B : Type} (m : M (list value) A) (k : A -> M (list value) B) :
  local m -> (forall a, local (k a)) -> local (bind m k).
Proof.
  intros Hm Hk f. unfold bind. rewrite (Hm f).
  destruct (m empty) as [[a|e] g]; cbn; [|done].
  rewrite (Hk a (extend f g)), (Hk a g). cbn. by rewrite extend_assoc.
Qed.

Lemma local_for_each {A : Type} (l : list A) (body : A -> M (list value) unit) :
  (forall x, local (body x)) -> local (for_each l body).
Proof.
  intros Hbody. induction l as [|x l IH]; cbn.
  - apply local_ret.
  - apply local_bind; [apply Hbody | intros _; apply IH].
Qed.

End Locality.

Create HintDb local.
#[local] Hint Resolve local_ret local_lift local_call local_append : local.

Ltac local_step :=
  match goal with
  | |- Py.local (Py.bind _ _) => apply local_bind; [|intros ?]
  | |- Py.local (if ?b then _ else _) => destruct b
  | |- Py.local _ => solve [auto with local]
  end.

Section CliFacts.
Import Py Cli.
Variable ext : collaborators.
Variable context : pydict value.
Implicit Types (step : value) (steps : list value).

Lemma run_step_local step : local (run_step ext context step).
Proof. unfold run_step. repeat local_step. Qed.

Lemma run_step_extend step f :
  run_step ext context step f =
  (fst (alone ext context step),
   extend f (Frame (step_entries ext context step) (step_trace ext context step))).
Proof.
  rewrite (run_step_local step f). unfold step_entries, step_trace, alone, empty.
  by destruct (run_step ext context step (Frame [] [])) as [r [rs tr]].
Qed.

(** A step of a type that has no branch in the loop does nothing at all. *)
Lemma run_step_unknown d f :
  let step := VDict d in
  let type := match dict_get "type" d with Some t => t | None => VNone end in
  is_str type "analyze" = false ->
  is_str type "assist" = false ->
  is_str type "test" = false ->
  run_step ext context step f = (Ok tt, f).
Proof.
  intros step type Ha Hs Ht. unfold run_step, step. cbn.
  fold type. by rewrite Ha, Hs, Ht.
Qed.

(** The entry of a step is the last thing the step does: a step that
    raises has recorded nothing. *)
Lemma raising_step_records_nothing step e :
  fst (alone ext context step) = Raise e -> step_entries ext context step = [].
Proof.
  unfold step_entries, alone, run_step, bind, lift, call, append, ret.
  repeat match goal with
         | |- context [match ?x with _ => _ end] => destruct x; cbn
         end; done.
Qed.

Lemma run_steps_extend steps f :
  for_each steps (run_step ext context) f =
  (first_error ext context steps,
   extend f (Frame (flat_map (step_entries ext context) (executed ext context steps))
                   (flat_map (step_trace ext context) (executed ext context steps)))).
Proof.
  revert f. induction steps as [|step steps IH]; intros f.
  - cbn. by rewrite extend_empty_r.
  - rewrite for_each_cons, run_step_extend. cbn [first_error executed].
    unfold completes. destruct (fst (alone ext context step)) as [[]|e].
    + rewrite IH, extend_assoc. done.
    + cbn. by rewrite !app_nil_r.
Qed.


Lemma executed_upto pre step post e :
  Forall (fun p => completes ext context p = true) pre ->
  fst (alone ext context step) = Raise e ->
  executed ext context (pre ++ step :: post) = pre ++ [step] /\
  first_error ext context (pre ++ step :: post) = Raise e.
Proof.
  intros Hpre Hstep.
  induction Hpre as [|p pre Hp Hpre IH]; cbn [app first_error executed].
  - unfold completes. by rewrite Hstep.
  - destruct IH as [-> ->]. rewrite Hp. unfold completes in Hp.
    by destruct (fst (alone ext context p)).
Qed.

Lemma executed_prefix steps : executed ext context steps `prefix_of` steps.
Proof.
  induction steps as [|step steps IH]; cbn [executed]; [done|].
  destruct (completes ext context step).
  - by apply prefix_cons.
  - apply prefix_cons, prefix_nil.
Qed.

End CliFacts.

(** ** The command-line manager: runs and store *)

Section CliRuns.
Import Py Cli.
Variable ext : collaborators.
Implicit Types (self : WorkflowManager) (fs : gmap string value).
Implicit Types (workflow step : value) (steps : list value).
Implicit Types (context : option (pydict value)).

(** A run of a workflow whose steps can be gone through. *)
Lemma run_workflow_steps self name context workflow listed steps :
  get_workflow self name = Ok workflow ->
  truthy workflow = true ->
  py_get workflow "steps" (VList []) = Ok listed ->
  py_iter listed = Ok steps ->
  let gone := executed ext (or_empty context) steps in
  let entries := flat_map (step_entries ext (or_empty context)) gone in
  run_workflow ext self name context =
  (match first_error ext (or_empty context) steps with
   | Ok _ => Ok (success name entries)
   | Raise e => Ok (failure (exn_text ext e) entries)
   end,
   flat_map (step_trace ext (or_empty context)) gone).
Proof.
  intros Hget Htrue Hlisted Hiter gone entries.
  unfold run_workflow, run_loop. rewrite Hget, Htrue. cbn [negb].
  unfold bind at 1, lift at 1. rewrite Hlisted.
  unfold bind at 1, lift at 1. rewrite Hiter.
  rewrite run_steps_extend. cbn.
  by destruct (first_error ext (or_empty context) steps) as [[]|e].
Qed.

(** Once the workflow is looked up, nothing is raised any more. *)
Lemma run_workflow_total self name context workflow :
  get_workflow self name = Ok workflow ->
  exists record, fst (run_workflow ext self name context) = Ok record.
Proof.
  intros Hget. unfold run_workflow. rewrite Hget.
  destruct (negb (truthy workflow)); [by eexists|].
  destruct (run_loop ext workflow (or_empty context) (Frame [] []))
    as [[[]|e] f]; by eexists.
Qed.

Lemma cli_run_workflow_missing self name context d :
  workflows self = VDict d ->
  dict_get name d = None ->
  run_workflow ext self name context = (Ok not_found, []).
Proof.
  intros Hstore Hname. unfold run_workflow, get_workflow.
  rewrite Hstore. cbn. by rewrite Hname.
Qed.

Lemma execute_workflow_missing self name kwargs d :
  workflows self = VDict d ->
  dict_get name d = None ->
  execute_workflow self name kwargs =
  (Raise (ValueError ("Workflow '" +:+ name +:+ "' not found")), []).
Proof.
  intros Hstore Hname. unfold execute_workflow, get_workflow.
  rewrite Hstore. cbn. by rewrite Hname.
Qed.

Lemma store_kind key outcome (f : frame (pydict value)) :
  In key kinds ->
  Forall (fun k => In k kinds) (dict_keys (results f)) ->
  Forall (fun k => In k kinds) (dict_keys (results (snd (store key outcome f)))).
Proof.
  intros Hkey Hf. unfold store. cbn [snd results]. rewrite dict_keys_set.
  destruct (dict_mem key (results f)); [done|].
  apply Forall_app. split; [done|]. by constructor.
Qed.

Lemma execute_step_kinds kwargs step (f : frame (pydict value)) :
  Forall (fun k => In k kinds) (dict_keys (results f)) ->
  Forall (fun k => In k kinds)
    (dict_keys (results (snd (execute_step kwargs step f)))).
Proof.
  intros Hf. unfold execute_step, answer, bind, lift, call, ret.
  destruct (py_get step "type" VNone) as [type|e]; [|done].
  destruct (dict_mem "step" kwargs);
    [by repeat destruct (is_str type _)|].
  destruct (is_str type "code_analysis");
    [apply store_kind; [cbn; tauto | done]|].
  destruct (is_str type "test_generation");
    [apply store_kind; [cbn; tauto | done]|].
  destruct (is_str type "refactoring");
    [apply store_kind; [cbn; tauto | done]|].
  done.
Qed.

Lemma execute_step_NoDup kwargs step (f : frame (pydict value)) :
  NoDup (dict_keys (results f)) ->
  NoDup (dict_keys (results (snd (execute_step kwargs step f)))).
Proof.
  intros Hf. unfold execute_step, answer, bind, lift, call, ret, store.
  destruct (py_get step "type" VNone) as [type|e]; [|done].
  destruct (dict_mem "step" kwargs);
    [by repeat destruct (is_str type _)|].
  destruct (is_str type "code_analysis"); [by apply dict_set_NoDup|].
  destruct (is_str type "test_generation"); [by apply dict_set_NoDup|].
  destruct (is_str type "refactoring"); [by apply dict_set_NoDup|].
  done.
Qed.

Lemma execute_steps_kinds kwargs steps (f : frame (pydict value)) :
  let r := results (snd (for_each steps (execute_step kwargs) f)) in
  (Forall (fun k => In k kinds) (dict_keys (results f)) ->
   Forall (fun k => In k kinds) (dict_keys r)) /\
  (NoDup (dict_keys (results f)) -> NoDup (dict_keys r)).
Proof.
  revert f. induction steps as [|step steps IH]; intros f; [done|].
  cbn zeta. rewrite for_each_cons.
  pose proof (execute_step_kinds kwargs step f) as Hk.
  pose proof (execute_step_NoDup kwargs step f) as Hn.
  destruct (execute_step kwargs step f) as [[[]|e] f1]; cbn in Hk, Hn.
  - destruct (IH f1) as [IHk IHn]. split; auto.
  - done.
Qed.

Lemma execute_workflow_kinds self name kwargs results :
  fst (execute_workflow self name kwargs) = Ok results ->
  Forall (fun k => In k kinds) (dict_keys results) /\ NoDup (dict_keys results).
Proof.
  unfold execute_workflow.
  destruct (get_workflow self name) as [workflow|e]; [|done].
  destruct (negb (truthy workflow)); [done|].
  unfold bind at 1, lift at 1.
  destruct (py_get workflow "steps" (VList [])) as [listed|e]; [|done].
  unfold bind at 1, lift at 1.
  destruct (py_iter listed) as [steps|e]; [|done].
  destruct (execute_steps_kinds kwargs steps (Frame [] [])) as [Hk Hn].
  destruct (for_each steps (execute_step kwargs) (Frame [] [])) as [[[]|e] f];
    [|done].
  cbn. intros [= <-]. split; [apply Hk | apply Hn]; cbn; constructor.
Qed.

(** The in-memory store of [add_workflow], [remove_workflow],
    [get_workflow] and [list_workflows]. *)
Lemma add_workflow_dict self fs name workflow d :
  workflows self = VDict d ->
  add_workflow self fs name workflow =
  Ok (set_workflows self (VDict (dict_set name workflow d)),
      <[config_path self := VDict (dict_set name workflow d)]> fs).
Proof. intros Hstore. unfold add_workflow. by rewrite Hstore. Qed.

Lemma remove_workflow_dict self fs name d :
  workflows self = VDict d ->
  remove_workflow self fs name =
  if dict_mem name d then
    Ok (set_workflows self (VDict (dict_del name d)),
        <[config_path self := VDict (dict_del name d)]> fs)
  else Ok (self, fs).
Proof.
  intros Hstore. unfold remove_workflow. rewrite Hstore. cbn.
  by destruct (dict_mem name d).
Qed.

(** Put [a], put [b], delete [a] on the empty store. *)
Lemma add_add_remove_list self fs a b wa wb :
  workflows self = VDict [] ->
  a <> b ->
  exists self1 fs1 self2 fs2 self3 fs3,
    add_workflow self fs a wa = Ok (self1, fs1) /\
    add_workflow self1 fs1 b wb = Ok (self2, fs2) /\
    remove_workflow self2 fs2 a = Ok (self3, fs3) /\
    list_workflows self3 = Ok [b] /\
    get_workflow self3 b = Ok wb /\
    fs3 !! config_path self = Some (VDict [(b, wb)]).
Proof.
  intros Hstore Hab. apply String.eqb_neq in Hab.
  set (self1 := set_workflows self (VDict [(a, wa)])).
  set (self2 := set_workflows self1 (VDict [(a, wa); (b, wb)])).
  set (self3 := set_workflows self2 (VDict [(b, wb)])).
  exists self1, (_save_workflows self1 fs), self2,
    (_save_workflows self2 (_save_workflows self1 fs)), self3,
    (_save_workflows self3 (_save_workflows self2 (_save_workflows self1 fs))).
  split_and!.
  - unfold add_workflow. by rewrite Hstore.
  - unfold add_workflow. cbn. by rewrite Hab.
  - unfold remove_workflow. cbn. unfold dict_mem. cbn.
    by rewrite !String.eqb_refl.
  - done.
  - unfold get_workflow. cbn. by rewrite String.eqb_refl.
  - unfold _save_workflows. cbn. by rewrite lookup_insert_eq.
Qed.

End CliRuns.

(** ** The model on small inputs *)

Section Examples.
Import Py.

Example empty_dict_is_falsy : truthy (VDict []) = false.
Proof. reflexivity. Qed.

Example iterating_a_string : py_iter (VStr "ab") = Ok [VStr "a"; VStr "b"].
Proof. reflexivity. Qed.

Example get_on_a_list_raises :
  py_get (VList []) "type" VNone = Raise (AttributeError "list" "get").
Proof. reflexivity. Qed.

Example set_keeps_the_place_of_a_key :
  dict_set "a" (VInt 3) [("a", VInt 1); ("b", VInt 2)] =
  [("a", VInt 3); ("b", VInt 2)].
Proof. reflexivity. Qed.

(** A store file that holds a number is loaded as the empty store. *)
Example loading_a_scalar :
  Cli._load_workflows (<["w.yaml" := VInt 3]> ∅) "w.yaml" = VDict [].
Proof. reflexivity. Qed.

Example core_result_of_ci :
  fst (@Core.run_workflow Core.strict Core.manager Core.stored "ci" "a.py") =
  Ok [("lint", VDict [("status", VStr "not_implemented")]);
      ("ship", VDict [("status", VStr "skipped");
                      ("reason", VStr "Unknown step type: deploy")]);
      ("tests", VDict [("status", VStr "not_implemented")])].
Proof. reflexivity. Qed.

Example cli_result_of_two_steps :
  Cli.run_workflow Cli.stub
    (Cli.holding [Cli.analyze_step; Cli.assist_step]) "ci" None =
  (Ok (VDict [("success", VBool false); ("error", VStr "missing api_key");
              ("partial_results",
               VList [VDict [("step", VStr "analyze");
                             ("results", VDict [("num_functions", VInt 1)])]])]),
   [Invoke "CodeAnalyzer" []; Invoke "analyze_complexity" [VStr "a.py"];
    Append (VDict [("step", VStr "analyze");
                   ("results", VDict [("num_functions", VInt 1)])]);
    Invoke "AIEngine" []]).
Proof. reflexivity. Qed.

End Examples.

(** * The claims *)

Section Claims.
Import Py.

(** In the core manager no step can raise: its two handlers are constants
    and the third branch builds a dict. *)
Lemma core_run_never_raises `{Core.Pydantic} self fs name file_path workflow :
  Core.get_workflow self fs name = Ok (Some workflow) ->
  exists results, fst (Core.run_workflow self fs name file_path) = Ok results.
Proof.
  intros Hget. rewrite (run_workflow_found _ _ _ _ _ Hget). by eexists.
Qed.

(** C1. When a step of a run raises, [run_workflow] of the command-line
    manager raises nothing: it returns the record
    [{success: False, error: str(e), partial_results: results}] whose
    [partial_results] are the entries of the steps before the failing one.
    ([pre] are the steps that completed, [step] the one that raises [e].) *)
Theorem C1_failure_keeps_partial_results
  (ext : Cli.collaborators) (self : Cli.WorkflowManager) (name : string)
  (context : option (pydict value)) (workflow listed step : value)
  (pre post : list value) (e : exn) :
  Cli.get_workflow self name = Ok workflow ->
  truthy workflow = true ->
  py_get workflow "steps" (VList []) = Ok listed ->
  py_iter listed = Ok (pre ++ step :: post) ->
  Forall (fun p => Cli.completes ext (Cli.or_empty context) p = true) pre ->
  fst (Cli.alone ext (Cli.or_empty context) step) = Raise e ->
  fst (Cli.run_workflow ext self name context) =
  Ok (VDict [("success", VBool false);
             ("error", VStr (Cli.exn_text ext e));
             ("partial_results",
              VList (flat_map (Cli.step_entries ext (Cli.or_empty context)) pre))]).
Proof.
  intros Hget Htrue Hlisted Hiter Hpre Hstep.
  rewrite (run_workflow_steps ext _ _ _ _ _ _ Hget Htrue Hlisted Hiter).
  destruct (executed_upto ext _ pre step post e Hpre Hstep) as [-> ->].
  cbn [fst]. rewrite flat_map_app. cbn [flat_map].
  rewrite (raising_step_records_nothing ext _ step e Hstep).
  by rewrite !app_nil_r.
Qed.

Lemma C1_failure_keeps_partial_results_witness :
  fst (Cli.run_workflow Cli.stub
         (Cli.holding [Cli.analyze_step; Cli.assist_step; Cli.analyze_step])
         "ci" None) =
  Ok (VDict [("success", VBool false);
             ("error", VStr "missing api_key");
             ("partial_results",
              VList [Cli.entry "analyze" (VDict [("num_functions", VInt 1)])])]).
Proof.
  apply (C1_failure_keeps_partial_results Cli.stub
           (Cli.holding [Cli.analyze_step; Cli.assist_step; Cli.analyze_step])
           "ci" None
           (VDict [("name", VStr "ci"); ("description", VStr "checks");
                   ("steps", VList [Cli.analyze_step; Cli.assist_step;
                                    Cli.analyze_step])])
           (VList [Cli.analyze_step; Cli.assist_step; Cli.analyze_step])
           Cli.assist_step [Cli.analyze_step] [Cli.analyze_step]
           (External "TypeError" "missing api_key")).
  - reflexivity.
  - reflexivity.
  - reflexivity.
  - reflexivity.
  - constructor; [reflexivity | constructor].
  - reflexivity.
Defined.



(** C2, as the code has it.  In the core manager a step whose type is
    neither [code_analysis] nor [test_generation] has the outcome
    [{status: "skipped", reason: "Unknown step type: <type>"}] recorded under
    its name, the steps after it are run as usual and nothing is raised; the
    entry is still there at the end unless a later step has the same name.
    In the command-line manager a step whose type is none of [analyze],
    [assist], [test] leaves no entry at all: the run is the run of the
    workflow without that step. *)
Theorem C2_unknown_type_does_not_abort :
  (forall (pyd : Core.Pydantic) self fs name file_path workflow pre step post,
     Core.get_workflow self fs name = Ok (Some workflow) ->
     Core.wf_steps workflow = pre ++ step :: post ->
     Core.step_type step <> "code_analysis" ->
     Core.step_type step <> "test_generation" ->
     let marker :=
       VDict [("status", VStr "skipped");
              ("reason", VStr ("Unknown step type: " +:+ Core.step_type step))] in
     let events := Core.step_events file_path in
     exists results,
       Core.run_workflow self fs name file_path =
       (Ok results,
        flat_map events pre ++ [Store (Core.step_name step) marker] ++
        flat_map events post) /\
       (Forall (fun later => Core.step_name later <> Core.step_name step) post ->
        dict_get (Core.step_name step) results = Some marker))
  /\
  (forall ext self self' name context workflow workflow' pre d post,
     let type := match dict_get "type" d with Some t => t | None => VNone end in
     is_str type "analyze" = false ->
     is_str type "assist" = false ->
     is_str type "test" = false ->
     Cli.get_workflow self name = Ok workflow ->
     Cli.get_workflow self' name = Ok workflow' ->
     truthy workflow = true ->
     truthy workflow' = true ->
     py_get workflow "steps" (VList []) = Ok (VList (pre ++ VDict d :: post)) ->
     py_get workflow' "steps" (VList []) = Ok (VList (pre ++ post)) ->
     Cli.run_workflow ext self name context =
     Cli.run_workflow ext self' name context).
Proof.
  split.
  - intros pyd self fs name file_path workflow pre step post Hget Hsteps Hca Htg
      marker events.
    apply String.eqb_neq in Hca, Htg.
    assert (Hout : Core.step_outcome file_path step = marker).
    { unfold Core.step_outcome. by rewrite Hca, Htg. }
    assert (Hev : events step = [Store (Core.step_name step) marker]).
    { unfold events, Core.step_events, Core.handler_of.
      by rewrite Hca, Htg, Hout. }
    eexists. split.
    + rewrite (run_workflow_found _ _ _ _ _ Hget), Hsteps.
      rewrite flat_map_app. cbn [flat_map]. fold events. by rewrite Hev.
    + intros Hlater. rewrite record_all_get, last_named_last; [|done..].
      by rewrite Hout.
  - intros ext self self' name context workflow workflow' pre d post type
      Ha Hs Ht Hget Hget' Htrue Htrue' Hsteps Hsteps'.
    unfold Cli.run_workflow, Cli.run_loop.
    rewrite Hget, Hget', Htrue, Htrue'. cbn [negb].
    unfold bind at 1 3, lift at 1 3. rewrite Hsteps, Hsteps'.
    unfold bind at 1 2, lift at 1 2. cbn [py_iter].
    rewrite !for_each_app.
    destruct (for_each pre _ _) as [[[]|e] f]; [|done].
    by rewrite for_each_cons, (run_step_unknown ext _ d f Ha Hs Ht).
Qed.

Lemma C2_unknown_type_does_not_abort_witness :
  (exists results,
     @Core.run_workflow Core.strict Core.manager Core.stored "ci" "a.py" =
     (Ok results,
      flat_map (Core.step_events "a.py") [Core.lint] ++
      [Store "ship" (VDict [("status", VStr "skipped");
                            ("reason", VStr "Unknown step type: deploy")])] ++
      flat_map (Core.step_events "a.py") [Core.unit_tests]) /\
     (Forall (fun later => Core.step_name later <> "ship") [Core.unit_tests] ->
      dict_get "ship" results =
      Some (VDict [("status", VStr "skipped");
                   ("reason", VStr "Unknown step type: deploy")])))
  /\
  Cli.run_workflow Cli.stub
    (Cli.holding [Cli.analyze_step; Cli.deploy_step; Cli.analyze_step]) "ci" None =
  Cli.run_workflow Cli.stub
    (Cli.holding [Cli.analyze_step; Cli.analyze_step]) "ci" None.
Proof.
  split.
  - apply (proj1 C2_unknown_type_does_not_abort Core.strict Core.manager
             Core.stored "ci" "a.py" Core.ci [Core.lint] Core.ship
             [Core.unit_tests]); [reflexivity | reflexivity | | ];
      cbn; discriminate.
  - apply (proj2 C2_unknown_type_does_not_abort Cli.stub
             (Cli.holding [Cli.analyze_step; Cli.deploy_step; Cli.analyze_step])
             (Cli.holding [Cli.analyze_step; Cli.analyze_step])
             "ci" None
             (VDict [("name", VStr "ci"); ("description", VStr "checks");
                     ("steps", VList [Cli.analyze_step; Cli.deploy_step;
                                      Cli.analyze_step])])
             (VDict [("name", VStr "ci"); ("description", VStr "checks");
                     ("steps", VList [Cli.analyze_step; Cli.analyze_step])])
             [Cli.analyze_step]
             [("type", VStr "deploy"); ("name", VStr "ship")]
             [Cli.analyze_step]);
      reflexivity.
Defined.

(** C2 as stated fails.  The command-line manager runs a workflow whose
    only step has the unknown type [deploy] and returns an empty list of
    results: no entry for the step.  The core manager records an entry, but
    its reason starts with a capital letter. *)
Lemma C2_counterexample :
  Cli.run_workflow Cli.stub (Cli.holding [Cli.deploy_step]) "ci" None =
  (Ok (VDict [("success", VBool true); ("workflow", VStr "ci");
              ("results", VList [])]), [])
  /\
  (exists results,
     fst (@Core.run_workflow Core.strict Core.manager Core.stored "ci" "a.py")
     = Ok results /\
     dict_get "ship" results =
     Some (VDict [("status", VStr "skipped");
                  ("reason", VStr "Unknown step type: deploy")]) /\
     dict_get "ship" results <>
     Some (VDict [("status", VStr "skipped");
                  ("reason", VStr "unknown step type: deploy")])).
Proof.
  split; [reflexivity|].
  eexists. split_and!; [reflexivity | reflexivity | discriminate].
Qed.

(** C3, as the code has it.  For a name that is not in the store,
    [run_workflow] of the command-line manager returns
    [{success: False, error: "Workflow not found"}]; [run_workflow] of the
    core manager and [execute_workflow] raise a [ValueError] that names the
    workflow.  In all three no step is run. *)
Theorem C3_missing_workflow :
  (forall ext self name context d,
     Cli.workflows self = VDict d ->
     dict_get name d = None ->
     Cli.run_workflow ext self name context =
     (Ok (VDict [("success", VBool false); ("error", VStr "Workflow not found")]),
      []))
  /\
  (forall (pyd : Core.Pydantic) self fs name file_path,
     fs !! Core.workflow_file self name = None ->
     Core.run_workflow self fs name file_path =
     (Raise (ValueError ("Workflow not found: " +:+ name)), []))
  /\
  (forall self name kwargs d,
     Cli.workflows self = VDict d ->
     dict_get name d = None ->
     Cli.execute_workflow self name kwargs =
     (Raise (ValueError ("Workflow '" +:+ name +:+ "' not found")), [])).
Proof.
  split_and!.
  - intros. by eapply cli_run_workflow_missing.
  - intros. by apply run_workflow_missing.
  - intros. by eapply execute_workflow_missing.
Qed.

Lemma C3_missing_workflow_witness :
  Cli.run_workflow Cli.stub (Cli.holding []) "missing" None =
  (Ok (VDict [("success", VBool false); ("error", VStr "Workflow not found")]), [])
  /\
  @Core.run_workflow Core.strict Core.manager Core.stored "missing" "a.py" =
  (Raise (ValueError "Workflow not found: missing"), [])
  /\
  Cli.execute_workflow (Cli.holding []) "missing" [] =
  (Raise (ValueError "Workflow 'missing' not found"), []).
Proof.
  split_and!.
  - eapply (proj1 C3_missing_workflow); reflexivity.
  - apply (proj1 (proj2 C3_missing_workflow) Core.strict). reflexivity.
  - eapply (proj2 (proj2 C3_missing_workflow)); reflexivity.
Defined.

(** C3 as stated fails: the core manager raises for a missing name. *)
Lemma C3_counterexample :
  fst (@Core.run_workflow Core.strict Core.manager Core.stored "missing" "a.py")
  = Raise (ValueError "Workflow not found: missing")
  /\
  fst (Cli.execute_workflow (Cli.holding []) "missing" [])
  = Raise (ValueError "Workflow 'missing' not found").
Proof. split; reflexivity. Qed.




(** C6, as the code has it.  In the core manager the result of a run of a
    workflow whose step names are pairwise distinct has the names of the
    steps as its keys, one entry per step in the order of the steps, each
    holding the outcome of its step.  [execute_workflow] of the command-line
    manager keys its result by the kind of step instead: the keys are among
    [analysis], [tests], [refactoring], each at most once. *)
Theorem C6_one_entry_per_step :
  (forall (pyd : Core.Pydantic) self fs name file_path workflow,
     Core.get_workflow self fs name = Ok (Some workflow) ->
     NoDup (map Core.step_name (Core.wf_steps workflow)) ->
     exists results,
       fst (Core.run_workflow self fs name file_path) = Ok results /\
       dict_keys results = map Core.step_name (Core.wf_steps workflow) /\
       length results = length (Core.wf_steps workflow) /\
       forall step, In step (Core.wf_steps workflow) ->
         dict_get (Core.step_name step) results =
         Some (Core.step_outcome file_path step))
  /\
  (forall self name kwargs results,
     fst (Cli.execute_workflow self name kwargs) = Ok results ->
     Forall (fun key => In key ["analysis"; "tests"; "refactoring"])
       (dict_keys results) /\
     NoDup (dict_keys results)).
Proof.
  split.
  - intros pyd self fs name file_path workflow Hget Hnd.
    rewrite (run_workflow_found _ _ _ _ _ Hget). eexists.
    assert (Hkeys : dict_keys (Core.record_all file_path (Core.wf_steps workflow) [])
                    = map Core.step_name (Core.wf_steps workflow))
      by (by rewrite record_all_keys).
    split_and!; [done | done | |].
    + rewrite <- (length_map fst), <- (length_map Core.step_name).
      by rewrite <- Hkeys.
    + intros step Hin. by rewrite record_all_get, last_named_NoDup.
  - intros self name kwargs results. apply execute_workflow_kinds.
Qed.

Lemma C6_one_entry_per_step_witness :
  (exists results,
     fst (@Core.run_workflow Core.strict Core.manager Core.stored "ci" "a.py")
     = Ok results /\
     dict_keys results = ["lint"; "ship"; "tests"] /\
     length results = 3 /\
     forall step, In step [Core.lint; Core.ship; Core.unit_tests] ->
       dict_get (Core.step_name step) results =
       Some (Core.step_outcome "a.py" step))
  /\
  (Forall (fun key => In key ["analysis"; "tests"; "refactoring"]) ["analysis"] /\
   NoDup ["analysis"]).
Proof.
  split.
  - apply (proj1 C6_one_entry_per_step Core.strict Core.manager Core.stored
             "ci" "a.py" Core.ci); [reflexivity|].
    cbn. repeat constructor; cbn; intros Hin; decompose_list_elem_of; done.
  - apply (proj2 C6_one_entry_per_step
             (Cli.holding [VDict [("type", VStr "code_analysis"); ("name", VStr "a")];
                           VDict [("type", VStr "code_analysis"); ("name", VStr "b")]])
             "ci" [] [("analysis", VNone)]).
    reflexivity.
Defined.

(** C6 as stated fails for [execute_workflow]: two steps with the distinct
    names [a] and [b] give a result with the single key [analysis]. *)
Lemma C6_counterexample :
  Cli.execute_workflow
    (Cli.holding [VDict [("type", VStr "code_analysis"); ("name", VStr "a")];
                  VDict [("type", VStr "code_analysis"); ("name", VStr "b")]])
    "ci" [] =
  (Ok [("analysis", VNone)],
   [Invoke "_execute_code_analysis"
      [VDict [("type", VStr "code_analysis"); ("name", VStr "a")]; VDict []];
    Store "analysis" VNone;
    Invoke "_execute_code_analysis"
      [VDict [("type", VStr "code_analysis"); ("name", VStr "b")]; VDict []];
    Store "analysis" VNone]).
Proof. reflexivity. Qed.

(** C7, as the code has it.  Creating a workflow under a name that is
    already stored succeeds in the core manager and replaces the record, and
    so does [add_workflow] of the command-line manager (the name keeps its
    place in the list of names).  [create_workflow] of the command-line
    manager does not replace: when the file of the name exists it returns
    [False] and leaves the file system as it is. *)
Theorem C7_put_on_a_stored_name :
  (forall (pyd : Core.Pydantic) self fs W steps_file d,
     is_Some (fs !! Core.workflow_file self (Core.wf_name W)) ->
     fs !! steps_file = Some (VDict d) ->
     dict_get "description" d = Some (VStr (Core.wf_description W)) ->
     dict_get "steps" d =
       Some (VList (map Core.WorkflowStep_dict (Core.wf_steps W))) ->
     exists fs',
       Core.create_workflow self fs (Core.wf_name W) steps_file = Ok fs' /\
       Core.get_workflow self fs' (Core.wf_name W) = Ok (Some W) /\
       forall path, path <> Core.workflow_file self (Core.wf_name W) ->
         fs' !! path = fs !! path)
  /\
  (forall self fs name workflow d old,
     Cli.workflows self = VDict d ->
     dict_get name d = Some old ->
     exists self' fs',
       Cli.add_workflow self fs name workflow = Ok (self', fs') /\
       Cli.get_workflow self' name = Ok workflow /\
       Cli.list_workflows self' = Cli.list_workflows self /\
       fs' !! Cli.config_path self' = Some (Cli.workflows self'))
  /\
  (forall self fs name description steps created modified dir,
     Cli.workflows_dir self = Some dir ->
     is_Some (fs !! Cli.os_path_join dir (name +:+ ".yml")) ->
     Cli.create_workflow self fs name description steps created modified =
     Ok (false, fs)).
Proof.
  split_and!.
  - intros pyd self fs W steps_file d [old Hold] Hfile Hdesc Hsteps.
    destruct (create_get_round_trip self fs W steps_file d
                (can_create_file _ _ _ _ Hold) Hfile Hdesc Hsteps)
      as (fs' & Hcreate & Hget).
    exists fs'. split_and!; [done | done |].
    intros path Hpath. by eapply create_workflow_frame.
  - intros self fs name workflow d old Hstore Hold.
    do 2 eexists. split_and!.
    + by apply add_workflow_dict.
    + unfold Cli.get_workflow. cbn. by rewrite dict_get_set_eq.
    + unfold Cli.list_workflows. rewrite Hstore. cbn [Cli.workflows Cli.set_workflows py_keys].
      rewrite dict_keys_set. unfold dict_mem. by rewrite Hold.
    + cbn. by rewrite lookup_insert_eq.
  - intros self fs name description steps created modified dir Hdir [old Hold].
    unfold Cli.create_workflow, Cli.get_workflows_dir. rewrite Hdir. cbn.
    by rewrite Hold.
Qed.

Lemma C7_put_on_a_stored_name_witness :
  (exists fs',
     @Core.create_workflow Core.strict Core.manager Core.stored "ci" "ci-steps.yaml"
     = Ok fs' /\
     @Core.get_workflow Core.strict Core.manager fs' "ci" = Ok (Some Core.ci) /\
     forall path, path <> Core.workflow_file Core.manager "ci" ->
       fs' !! path = Core.stored !! path)
  /\
  (exists self' fs',
     Cli.add_workflow (Cli.holding []) ∅ "ci" (VDict [("steps", VList [])])
     = Ok (self', fs') /\
     Cli.get_workflow self' "ci" = Ok (VDict [("steps", VList [])]) /\
     Cli.list_workflows self' = Cli.list_workflows (Cli.holding []) /\
     fs' !! Cli.config_path self' = Some (Cli.workflows self'))
  /\
  Cli.create_workflow
    (Cli.with_dir (Cli.holding []) "/home/dev/.devchat/workflows")
    (<["/home/dev/.devchat/workflows/ci.yml" := VDict [("name", VStr "ci")]]> ∅)
    "ci" "new" VNone "t1" "t2" =
  Ok (false,
      <["/home/dev/.devchat/workflows/ci.yml" := VDict [("name", VStr "ci")]]> ∅).
Proof.
  split_and!.
  - apply (proj1 C7_put_on_a_stored_name Core.strict Core.manager Core.stored
             Core.ci "ci-steps.yaml"
             [("name", VStr "ci"); ("description", VStr "checks on every commit");
              ("steps", VList (map Core.WorkflowStep_dict (Core.wf_steps Core.ci)))]);
      [by eexists | reflexivity..].
  - apply (proj1 (proj2 C7_put_on_a_stored_name) (Cli.holding []) ∅ "ci"
             (VDict [("steps", VList [])])
             [("ci", VDict [("name", VStr "ci"); ("description", VStr "checks");
                            ("steps", VList [])])]
             (VDict [("name", VStr "ci"); ("description", VStr "checks");
                     ("steps", VList [])]));
      reflexivity.
  - apply (proj2 (proj2 C7_put_on_a_stored_name)
             (Cli.with_dir (Cli.holding []) "/home/dev/.devchat/workflows")
             _ "ci" "new" VNone "t1" "t2" "/home/dev/.devchat/workflows");
      [reflexivity | by eexists].
Defined.

(** C7 as stated fails for [create_workflow] of the command-line manager:
    on a name whose file exists it returns [False] and the old record
    stays; on a manager as [__init__] leaves it, it raises. *)
Lemma C7_counterexample :
  let old := VDict [("name", VStr "ci"); ("description", VStr "old")] in
  let fs := <["/home/dev/.devchat/workflows/ci.yml" := old]> ∅ in
  let self := Cli.with_dir (Cli.holding []) "/home/dev/.devchat/workflows" in
  Cli.create_workflow self fs "ci" "new" VNone "t1" "t2" = Ok (false, fs) /\
  fs !! "/home/dev/.devchat/workflows/ci.yml" = Some old /\
  Cli.create_workflow (Cli.holding []) fs "ci" "new" VNone "t1" "t2" =
  Raise (AttributeError "WorkflowManager" "workflows_dir").
Proof. split_and!; reflexivity. Qed.


(** C9. When two steps of a workflow have the same name, the run of the
    core manager raises nothing and its result has one entry under that
    name, which holds the outcome of the later of the two steps (of the
    last step so named). *)
Theorem C9_later_step_overwrites
  (pyd : Core.Pydantic) (self : Core.WorkflowManager) (fs : gmap string value)
  (name file_path : string) (workflow : Core.Workflow)
  (pre mid post : list Core.WorkflowStep) (earlier later : Core.WorkflowStep) :
  Core.get_workflow self fs name = Ok (Some workflow) ->
  Core.wf_steps workflow = pre ++ earlier :: mid ++ later :: post ->
  Core.step_name earlier = Core.step_name later ->
  Forall (fun step => Core.step_name step <> Core.step_name later) post ->
  exists results,
    fst (Core.run_workflow self fs name file_path) = Ok results /\
    NoDup (dict_keys results) /\
    dict_get (Core.step_name later) results =
      Some (Core.step_outcome file_path later) /\
    length (List.filter
              (fun entry => String.eqb (fst entry) (Core.step_name later))
              results) = 1.
Proof.
  intros Hget Hsteps Hsame Hpost.
  rewrite (run_workflow_found _ _ _ _ _ Hget). eexists.
  assert (Hnd : NoDup (dict_keys
                  (Core.record_all file_path (Core.wf_steps workflow) [])))
    by (apply record_all_NoDup; constructor).
  assert (Hentry : dict_get (Core.step_name later)
                     (Core.record_all file_path (Core.wf_steps workflow) []) =
                   Some (Core.step_outcome file_path later)).
  { rewrite record_all_get, Hsteps.
    replace (pre ++ earlier :: mid ++ later :: post)
      with ((pre ++ earlier :: mid) ++ later :: post)
      by (by rewrite <- app_assoc).
    by rewrite last_named_last. }
  split_and!; [done | done | done |].
  by eapply dict_single_entry.
Qed.

Lemma C9_later_step_overwrites_witness :
  exists results,
    fst (@Core.run_workflow Core.strict Core.manager Core.stored "twice" "a.py")
    = Ok results /\
    NoDup (dict_keys results) /\
    dict_get "lint" results = Some (Core.step_outcome "a.py" Core.relint) /\
    length (List.filter (fun entry => String.eqb (fst entry) "lint") results) = 1.
Proof.
  apply (C9_later_step_overwrites Core.strict Core.manager Core.stored
           "twice" "a.py" Core.twice [] [Core.ship] [] Core.lint Core.relint);
    [reflexivity | reflexivity | reflexivity | constructor].
Defined.

(** C10. [ConfigManager.set] with a key that the configuration has no
    attribute for does nothing: the manager, hence the configuration in
    memory, and the file system are as before, and nothing is raised. *)
Theorem C10_set_unknown_key_is_a_no_op
  (base : Conf.BaseModel) (self : Conf.ConfigManager) (fs : gmap string value)
  (key val : string) :
  Conf.hasattr (Conf.config self) key = false ->
  Conf.set self fs key val = Ok (self, fs).
Proof. intros Hno. unfold Conf.set. by rewrite Hno. Qed.

Lemma C10_set_unknown_key_is_a_no_op_witness :
  @Conf.set Conf.bare (Conf.init "/home/dev") ∅ "colour" "blue" =
  Ok (Conf.init "/home/dev", ∅).
Proof.
  apply (C10_set_unknown_key_is_a_no_op Conf.bare (Conf.init "/home/dev") ∅
           "colour" "blue").
  reflexivity.
Defined.

End Claims.

(** * Further properties of the code *)

(** ** More on dictionaries *)

Section MoreDictFacts.
Import Py.
Context {V : Type}.
Implicit Types (k : string) (v : V) (d : pydict V).

Lemma dict_del_absent k d : dict_get k d = None -> dict_del k d = d.
Proof.
  induction d as [|[k0 v0] d IH]; cbn; [done|].
  destruct (String.eqb k0 k); [done|]. intros Hget. by rewrite IH.
Qed.

Lemma dict_keys_del_In k n d :
  NoDup (dict_keys d) ->
  In n (dict_keys (dict_del k d)) <-> In n (dict_keys d) /\ n <> k.
Proof.
  induction d as [|[k0 v0] d IH]; cbn; [tauto|].
  intros Hnd. apply NoDup_cons in Hnd as [Hfresh Hnd].
  rewrite list_elem_of_In in Hfresh.
  destruct (String.eqb k0 k) eqn:E.
  - apply String.eqb_eq in E. subst k0. split.
    + intros Hn. split; [tauto|]. by intros ->.
    + intros [[->|Hn] Hne]; done.
  - apply String.eqb_neq in E. cbn. rewrite (IH Hnd). split.
    + intros [<-|[Hn Hne]]; tauto.
    + intros [[<-|Hn] Hne]; tauto.
Qed.

Lemma dict_del_NoDup k d :
  NoDup (dict_keys d) -> NoDup (dict_keys (dict_del k d)).
Proof.
  induction d as [|[k0 v0] d IH]; cbn; [done|].
  intros Hnd. pose proof Hnd as Hall.
  apply NoDup_cons in Hnd as [Hfresh Hnd].
  destruct (String.eqb k0 k); [done|]. cbn.
  apply NoDup_cons. split; [|by apply IH].
  rewrite list_elem_of_In in *. intros Hin.
  apply (dict_keys_del_In k k0 d Hnd) in Hin. tauto.
Qed.

Lemma dict_set_Forall (P : V -> Prop) k v d :
  P v ->
  Forall (fun binding => P (snd binding)) d ->
  Forall (fun binding => P (snd binding)) (dict_set k v d).
Proof.
  intros Hv. induction d as [|[k0 v0] d IH]; cbn.
  - by repeat constructor.
  - intros Hd. apply Forall_cons in Hd as [H0 Hd].
    destruct (String.eqb k0 k); constructor; auto.
Qed.

End MoreDictFacts.

(** ** The command-line manager: the store in memory and on disk *)

Section StoreFacts.
Import Py Cli.
Implicit Types (self : WorkflowManager) (fs : gmap string value).

(** X1. [add_workflow] on a store: the name now gives the new record, every
    other name gives what it gave before, the list of names gains the name
    at its end when it is new and is unchanged otherwise, no name is
    listed twice, and the store file holds the store. *)
Theorem X1_add_workflow_lookup self fs name workflow d :
  workflows self = VDict d ->
  NoDup (dict_keys d) ->
  exists self' fs',
    add_workflow self fs name workflow = Ok (self', fs') /\
    get_workflow self' name = Ok workflow /\
    (forall other, other <> name ->
       get_workflow self' other = get_workflow self other) /\
    list_workflows self' =
      Ok (if dict_mem name d then dict_keys d else dict_keys d ++ [name]) /\
    (exists d', workflows self' = VDict d' /\ NoDup (dict_keys d')) /\
    fs' !! config_path self = Some (workflows self').
Proof.
  intros Hstore Hnd. do 2 eexists. split_and!.
  - by apply add_workflow_dict.
  - unfold get_workflow. cbn. by rewrite dict_get_set_eq.
  - intros other Hother. unfold get_workflow. rewrite Hstore. cbn.
    by rewrite dict_get_set_ne.
  - unfold list_workflows. cbn. by rewrite dict_keys_set.
  - eexists. split; [reflexivity|]. by apply dict_set_NoDup.
  - cbn. by rewrite lookup_insert_eq.
Qed.

Lemma X1_add_workflow_lookup_witness :
  exists self' fs',
    add_workflow (holding []) ∅ "nightly" (VDict [("steps", VList [])])
    = Ok (self', fs') /\
    get_workflow self' "nightly" = Ok (VDict [("steps", VList [])]) /\
    (forall other, other <> "nightly" ->
       get_workflow self' other = get_workflow (holding []) other) /\
    list_workflows self' = Ok ["ci"; "nightly"] /\
    (exists d', workflows self' = VDict d' /\ NoDup (dict_keys d')) /\
    fs' !! config_path (holding []) = Some (workflows self').
Proof.
  apply (X1_add_workflow_lookup (holding []) ∅ "nightly"
           (VDict [("steps", VList [])])
           [("ci", VDict [("name", VStr "ci"); ("description", VStr "checks");
                          ("steps", VList [])])]).
  - reflexivity.
  - cbn. apply NoDup_singleton.
Defined.

(** X2. [remove_workflow] on a store: the name then gives [None], every
    other name gives what it gave before, and the names listed are the
    former ones without it.  For a name that is not in the store nothing
    changes and nothing is written. *)
Theorem X2_remove_workflow_lookup self fs name d :
  workflows self = VDict d ->
  NoDup (dict_keys d) ->
  exists self' fs' names,
    remove_workflow self fs name = Ok (self', fs') /\
    get_workflow self' name = Ok VNone /\
    (forall other, other <> name ->
       get_workflow self' other = get_workflow self other) /\
    list_workflows self' = Ok names /\
    NoDup names /\
    (forall n, In n names <-> In n (dict_keys d) /\ n <> name) /\
    (dict_get name d = None -> self' = self /\ fs' = fs) /\
    (dict_get name d <> None -> fs' !! config_path self = Some (workflows self')).
Proof.
  intros Hstore Hnd. rewrite (remove_workflow_dict self fs name d Hstore).
  unfold dict_mem. destruct (dict_get name d) as [old|] eqn:Hget.
  - do 3 eexists. split_and!; [reflexivity | | | reflexivity | | | done |].
    + unfold get_workflow. cbn. by rewrite dict_get_del_eq.
    + intros other Hother. unfold get_workflow. rewrite Hstore. cbn.
      by rewrite dict_get_del_ne.
    + by apply dict_del_NoDup.
    + intros n. by apply dict_keys_del_In.
    + intros _. cbn. by rewrite lookup_insert_eq.
  - exists self, fs, (dict_keys d).
    split_and!; [done | | done | | done | | done | done].
    + unfold get_workflow. rewrite Hstore. cbn. by rewrite Hget.
    + unfold list_workflows. by rewrite Hstore.
    + intros n. split; [|tauto]. intros Hn. split; [done|].
      intros ->. apply dict_get_None_keys in Hget. done.
Qed.

Lemma X2_remove_workflow_lookup_witness :
  exists self' fs' names,
    remove_workflow (holding []) ∅ "ci" = Ok (self', fs') /\
    get_workflow self' "ci" = Ok VNone /\
    (forall other, other <> "ci" ->
       get_workflow self' other = get_workflow (holding []) other) /\
    list_workflows self' = Ok names /\
    NoDup names /\
    (forall n, In n names <-> In n ["ci"] /\ n <> "ci") /\
    (dict_get "ci"
       [("ci", VDict [("name", VStr "ci"); ("description", VStr "checks");
                      ("steps", VList [])])] = None ->
     self' = holding [] /\ fs' = ∅) /\
    (dict_get "ci"
       [("ci", VDict [("name", VStr "ci"); ("description", VStr "checks");
                      ("steps", VList [])])] <> None ->
     fs' !! config_path (holding []) = Some (workflows self')).
Proof.
  apply (X2_remove_workflow_lookup (holding []) ∅ "ci"
           [("ci", VDict [("name", VStr "ci"); ("description", VStr "checks");
                          ("steps", VList [])])]).
  - reflexivity.
  - cbn. apply NoDup_singleton.
Defined.

(** What [_load_workflows] makes of a store file that holds a mapping. *)
Lemma load_saved_store fs path d :
  fs !! path = Some (VDict d) -> _load_workflows fs path = VDict d.
Proof.
  intros Hfile. unfold _load_workflows. rewrite Hfile. by destruct d.
Qed.

(** X3. The store survives a restart: after [add_workflow], a manager
    built anew on the resulting disk with the same path answers
    [get_workflow] as the manager that made the change, for every name. *)
Theorem X3_store_survives_restart self fs home name workflow d self' fs' :
  workflows self = VDict d ->
  config_path self <> "" ->
  add_workflow self fs name workflow = Ok (self', fs') ->
  forall n,
    get_workflow (init home fs' (Some (config_path self))) n =
    get_workflow self' n.
Proof.
  intros Hstore Hpath Hadd n.
  rewrite (add_workflow_dict self fs name workflow d Hstore) in Hadd.
  injection Hadd as <- <-.
  unfold get_workflow, init. apply String.eqb_neq in Hpath. rewrite Hpath.
  cbn [workflows set_workflows].
  by rewrite (load_saved_store _ _ (dict_set name workflow d))
    by apply lookup_insert_eq.
Qed.

Lemma X3_store_survives_restart_witness :
  get_workflow
    (init "/home/dev"
       (<[config_path (holding []) :=
            VDict (dict_set "nightly" (VDict [("steps", VList [])])
                     [("ci", VDict [("name", VStr "ci");
                                    ("description", VStr "checks");
                                    ("steps", VList [])])])]> ∅)
       (Some (config_path (holding [])))) "nightly" =
  get_workflow
    (set_workflows (holding [])
       (VDict (dict_set "nightly" (VDict [("steps", VList [])])
                 [("ci", VDict [("name", VStr "ci");
                                ("description", VStr "checks");
                                ("steps", VList [])])]))) "nightly".
Proof.
  apply (X3_store_survives_restart (holding []) ∅ "/home/dev" "nightly"
           (VDict [("steps", VList [])])
           [("ci", VDict [("name", VStr "ci"); ("description", VStr "checks");
                          ("steps", VList [])])]).
  - reflexivity.
  - discriminate.
  - reflexivity.
Defined.

End StoreFacts.

(** ** The command-line manager: more on runs *)

Section MoreRuns.
Import Py Cli.
Implicit Types (self : WorkflowManager) (fs : gmap string value).

Lemma execute_step_none kwargs step (f : frame (pydict value)) :
  Forall (fun binding => snd binding = VNone) (results f) ->
  Forall (fun binding => snd binding = VNone)
    (results (snd (execute_step kwargs step f))).
Proof.
  intros Hf. unfold execute_step, answer, bind, lift, call, ret, store.
  destruct (py_get step "type" VNone) as [type|e]; [|done].
  destruct (dict_mem "step" kwargs);
    [by repeat destruct (is_str type _)|].
  destruct (is_str type "code_analysis");
    [by apply (dict_set_Forall (fun v => v = VNone))|].
  destruct (is_str type "test_generation");
    [by apply (dict_set_Forall (fun v => v = VNone))|].
  destruct (is_str type "refactoring");
    [by apply (dict_set_Forall (fun v => v = VNone))|].
  done.
Qed.

Lemma execute_steps_none kwargs steps (f : frame (pydict value)) :
  Forall (fun binding => snd binding = VNone) (results f) ->
  Forall (fun binding => snd binding = VNone)
    (results (snd (for_each steps (execute_step kwargs) f))).
Proof.
  revert f. induction steps as [|step steps IH]; intros f Hf; [done|].
  rewrite for_each_cons.
  pose proof (execute_step_none kwargs step f Hf) as Hstep.
  destruct (execute_step kwargs step f) as [[[]|e] f1]; cbn in Hstep; auto.
Qed.

(** X4. Whatever the workflow, every entry of the result of
    [execute_workflow] holds [None]: the three handlers have an empty
    body, so a run produces keys but no payload. *)
Theorem X4_execute_workflow_yields_none self name kwargs results :
  fst (execute_workflow self name kwargs) = Ok results ->
  Forall (fun binding => snd binding = VNone) results.
Proof.
  unfold execute_workflow.
  destruct (get_workflow self name) as [workflow|e]; [|done].
  destruct (negb (truthy workflow)); [done|].
  unfold bind at 1, lift at 1.
  destruct (py_get workflow "steps" (VList [])) as [listed|e]; [|done].
  unfold bind at 1, lift at 1.
  destruct (py_iter listed) as [steps|e]; [|done].
  pose proof (execute_steps_none kwargs steps (Frame [] [])) as Hnone.
  destruct (for_each steps (execute_step kwargs) (Frame [] [])) as [[[]|e] f];
    [|done].
  cbn. intros [= <-]. apply Hnone. constructor.
Qed.

Lemma X4_execute_workflow_yields_none_witness :
  Forall (fun binding => snd binding = VNone)
    [("analysis", VNone); ("refactoring", VNone)].
Proof.
  apply (X4_execute_workflow_yields_none
           (holding [VDict [("type", VStr "code_analysis")];
                     VDict [("type", VStr "refactoring")];
                     VDict [("type", VStr "code_analysis")]])
           "ci" []).
  reflexivity.
Defined.

(** X5. A workflow stored as an empty record is listed, yet both ways of
    running it treat it as missing: [run_workflow] answers "not found" and
    [execute_workflow] raises, without running anything. *)
Theorem X5_empty_record_counts_as_missing
  ext self name context kwargs d record :
  workflows self = VDict d ->
  dict_get name d = Some record ->
  truthy record = false ->
  (exists names, list_workflows self = Ok names /\ In name names) /\
  run_workflow ext self name context = (Ok not_found, []) /\
  execute_workflow self name kwargs =
  (Raise (ValueError ("Workflow '" +:+ name +:+ "' not found")), []).
Proof.
  intros Hstore Hget Hfalsy. split_and!.
  - exists (dict_keys d). unfold list_workflows. rewrite Hstore. split; [done|].
    apply dict_mem_keys. unfold dict_mem. by rewrite Hget.
  - unfold run_workflow, get_workflow. rewrite Hstore. cbn.
    by rewrite Hget, Hfalsy.
  - unfold execute_workflow, get_workflow. rewrite Hstore. cbn.
    by rewrite Hget, Hfalsy.
Qed.

Lemma X5_empty_record_counts_as_missing_witness :
  (exists names,
     list_workflows (set_workflows (holding []) (VDict [("draft", VDict [])]))
     = Ok names /\ In "draft" names) /\
  run_workflow stub (set_workflows (holding []) (VDict [("draft", VDict [])]))
    "draft" None = (Ok not_found, []) /\
  execute_workflow (set_workflows (holding []) (VDict [("draft", VDict [])]))
    "draft" [] =
  (Raise (ValueError "Workflow 'draft' not found"), []).
Proof.
  apply (X5_empty_record_counts_as_missing stub
           (set_workflows (holding []) (VDict [("draft", VDict [])]))
           "draft" None [] [("draft", VDict [])] (VDict []));
    reflexivity.
Defined.

Lemma step_entries_shape ext context step :
  length (step_entries ext context step) <= 1 /\
  Forall is_entry (step_entries ext context step).
Proof.
  unfold step_entries, alone, run_step, bind, lift, call, append, ret.
  repeat match goal with
         | |- context [match ?x with _ => _ end] => destruct x; cbn
         end;
    (split; [lia|]); repeat constructor;
    eexists _, _; (split; [reflexivity|]); cbn; tauto.
Qed.

Lemma flat_map_entries ext context steps :
  length (flat_map (step_entries ext context) steps) <= length steps /\
  Forall is_entry (flat_map (step_entries ext context) steps).
Proof.
  induction steps as [|step steps [IHl IHf]]; cbn; [split; [lia | constructor]|].
  destruct (step_entries_shape ext context step) as [Hl Hf].
  rewrite length_app. split; [lia|]. by apply Forall_app.
Qed.

(** X6. The list a run of [run_workflow] returns, under [results] or under
    [partial_results], has at most one entry per step of the workflow, and
    each entry is [{step: kind, results: payload}] with the kind one of
    [analyze], [assist], [test]. *)
Theorem X6_run_results_shape
  ext self name context workflow listed steps :
  get_workflow self name = Ok workflow ->
  truthy workflow = true ->
  py_get workflow "steps" (VList []) = Ok listed ->
  py_iter listed = Ok steps ->
  exists entries,
    (fst (run_workflow ext self name context) = Ok (success name entries) \/
     exists error,
       fst (run_workflow ext self name context) = Ok (failure error entries)) /\
    length entries <= length steps /\
    Forall is_entry entries.
Proof.
  intros Hget Htrue Hlisted Hiter.
  rewrite (run_workflow_steps ext _ _ _ _ _ _ Hget Htrue Hlisted Hiter).
  eexists. split_and!.
  - cbn [fst].
    destruct (first_error ext (or_empty context) steps) as [[]|e];
      [by left | right; by eexists].
  - destruct (flat_map_entries ext (or_empty context)
                (executed ext (or_empty context) steps)) as [Hl _].
    pose proof (prefix_length _ _ (executed_prefix ext (or_empty context) steps)).
    lia.
  - apply flat_map_entries.
Qed.

Lemma X6_run_results_shape_witness :
  exists entries,
    (fst (run_workflow stub (holding [analyze_step; deploy_step; assist_step])
            "ci" None) = Ok (success "ci" entries) \/
     exists error,
       fst (run_workflow stub (holding [analyze_step; deploy_step; assist_step])
              "ci" None) = Ok (failure error entries)) /\
    length entries <= 3 /\
    Forall is_entry entries.
Proof.
  apply (X6_run_results_shape stub
           (holding [analyze_step; deploy_step; assist_step]) "ci" None
           (VDict [("name", VStr "ci"); ("description", VStr "checks");
                   ("steps", VList [analyze_step; deploy_step; assist_step])])
           (VList [analyze_step; deploy_step; assist_step])
           [analyze_step; deploy_step; assist_step]);
    reflexivity.
Defined.

(** X7. A step that lacks what its kind needs is passed over in silence:
    an [analyze] or [test] step whose [file] is missing, empty or not on
    disk, and an [assist] step whose [query] is missing or empty, call no
    collaborator, add no entry and raise nothing. *)
Theorem X7_step_without_input_is_passed_over
  ext context d (f : frame (list value)) :
  let type := match dict_get "type" d with Some t => t | None => VNone end in
  let config :=
    match dict_get "config" d with Some c => c | None => VDict [] end in
  (exists c,
     config = VDict c /\
     ((is_str type "analyze" || is_str type "test" = true /\
       file_exists ext
         (match dict_get "file" c with Some x => x | None => VNone end)
       = Ok false) \/
      (is_str type "assist" = true /\
       truthy (match dict_get "query" c with Some x => x | None => VNone end)
       = false))) ->
  run_step ext context (VDict d) f = (Ok tt, f).
Proof.
  intros type config (c & Hc & Hcase).
  unfold run_step, bind, lift. cbn [py_get]. fold type. fold config.
  rewrite Hc. cbn [py_get].
  destruct Hcase as [[Hkind Hfile]|[Hkind Hquery]].
  - apply orb_true_iff in Hkind as [Hkind|Hkind].
    + rewrite Hkind, Hfile. done.
    + destruct (is_str type "analyze") eqn:Ha; [by rewrite Hfile|].
      destruct (is_str type "assist") eqn:Hs.
      * destruct type as [| | | |t| |]; try done. cbn in Hs, Hkind.
        apply String.eqb_eq in Hs, Hkind. congruence.
      * by rewrite Hkind, Hfile.
  - destruct (is_str type "analyze") eqn:Ha.
    + destruct type as [| | | |t| |]; try done. cbn in Ha, Hkind.
      apply String.eqb_eq in Ha, Hkind. congruence.
    + by rewrite Hkind, Hquery.
Qed.

Lemma X7_step_without_input_is_passed_over_witness :
  run_step stub [] (VDict [("type", VStr "assist"); ("config", VDict [])])
    (Frame [] []) = (Ok tt, Frame [] []).
Proof.
  apply (X7_step_without_input_is_passed_over stub []
           [("type", VStr "assist"); ("config", VDict [])] (Frame [] [])).
  exists []. split; [reflexivity|]. right. split; reflexivity.
Defined.

(** [update_workflow] of a name that is not in the store returns
    [False] and changes neither the manager nor the disk. *)
Lemma update_of_a_missing_name self fs name updates modified d :
  workflows self = VDict d ->
  dict_get name d = None ->
  update_workflow self fs name updates modified = (Ok false, self, fs).
Proof.
  intros Hstore Hget. unfold update_workflow, get_workflow.
  rewrite Hstore. cbn. by rewrite Hget.
Qed.

Lemma update_of_a_missing_name_witness :
  update_workflow (holding []) ∅ "nightly" [("description", VStr "new")] "t1"
  = (Ok false, holding [], ∅).
Proof.
  apply (update_of_a_missing_name (holding []) ∅ "nightly"
           [("description", VStr "new")] "t1"
           [("ci", VDict [("name", VStr "ci"); ("description", VStr "checks");
                          ("steps", VList [])])]);
    reflexivity.
Defined.

(** X8. On a manager that has no [workflows_dir], as [__init__] leaves it,
    [update_workflow] of a stored record fails half way: it raises
    [AttributeError] and writes nothing, but the record the store holds
    under the name has already taken the updates and the new
    [modified_at]. *)
Theorem X8_update_raises_after_the_change
  self fs name updates modified d record :
  workflows self = VDict d ->
  workflows_dir self = None ->
  dict_get name d = Some (VDict record) ->
  record <> [] ->
  exists self',
    update_workflow self fs name updates modified =
    (Raise (AttributeError "WorkflowManager" "workflows_dir"), self', fs) /\
    get_workflow self' name =
    Ok (VDict (dict_set "modified_at" (VStr modified)
                 (dict_update updates record))).
Proof.
  intros Hstore Hdir Hget Hrecord.
  unfold update_workflow, get_workflow. rewrite Hstore. cbn. rewrite Hget.
  destruct record as [|binding record]; [done|]. cbn [negb].
  unfold get_workflows_dir. cbn. rewrite Hdir.
  eexists. split; [reflexivity|].
  cbn. by rewrite dict_get_set_eq.
Qed.

Lemma X8_update_raises_after_the_change_witness :
  exists self',
    update_workflow (holding []) ∅ "ci" [("description", VStr "new")] "t1" =
    (Raise (AttributeError "WorkflowManager" "workflows_dir"), self', ∅) /\
    get_workflow self' "ci" =
    Ok (VDict (dict_set "modified_at" (VStr "t1")
                 (dict_update [("description", VStr "new")]
                    [("name", VStr "ci"); ("description", VStr "checks");
                     ("steps", VList [])]))).
Proof.
  apply (X8_update_raises_after_the_change (holding []) ∅ "ci"
           [("description", VStr "new")] "t1"
           [("ci", VDict [("name", VStr "ci"); ("description", VStr "checks");
                          ("steps", VList [])])]
           [("name", VStr "ci"); ("description", VStr "checks");
            ("steps", VList [])]);
    [reflexivity | reflexivity | reflexivity | discriminate].
Defined.

End MoreRuns.

(** ** The workflow commands *)

Section CommandFacts.
Import Py.
Implicit Types (fs : gmap string value) (home name : string).

Lemma init_default home fs :
  Cli.init home fs None =
  {| Cli.config_path := WorkflowCmd.store_path home;
     Cli.workflows := Cli._load_workflows fs (WorkflowCmd.store_path home);
     Cli.workflows_dir := None |}.
Proof. reflexivity. Qed.

Lemma load_fresh_store fs path :
  fs !! path = None -> Cli._load_workflows fs path = VDict [].
Proof. intros Hfile. unfold Cli._load_workflows. by rewrite Hfile. Qed.

(** [create] on a disk that has no store yet. *)
Lemma create_on_fresh_disk home fs name description steps listed :
  fs !! WorkflowCmd.store_path home = None ->
  WorkflowCmd.load_steps fs steps = Ok listed ->
  let record :=
    VDict [("name", VStr name);
           ("description", VStr (WorkflowCmd.described name description));
           ("steps", listed)] in
  let fs' := <[WorkflowCmd.store_path home := VDict [(name, record)]]> fs in
  WorkflowCmd.create home fs name description steps =
  ([WorkflowCmd.Line [WorkflowCmd.Text ("Created workflow: " +:+ name)]],
   None, fs') /\
  Cli.init home fs' None =
  {| Cli.config_path := WorkflowCmd.store_path home;
     Cli.workflows := VDict [(name, record)];
     Cli.workflows_dir := None |}.
Proof.
  intros Hfresh Hsteps record fs'. split.
  - unfold WorkflowCmd.create. rewrite Hsteps, init_default.
    rewrite (load_fresh_store _ _ Hfresh). reflexivity.
  - rewrite init_default. f_equal.
    apply load_saved_store. apply lookup_insert_eq.
Qed.

(** X10. On a disk without a store, [create] followed by [list] in a later
    process shows the new workflow: the heading, its name, its description
    (the one given, or "Workflow: <name>") and the length of its steps. *)
Theorem X10_created_workflow_is_listed
  home fs name description steps listed n :
  fs !! WorkflowCmd.store_path home = None ->
  WorkflowCmd.load_steps fs steps = Ok listed ->
  py_len listed = Ok n ->
  exists fs',
    WorkflowCmd.create home fs name description steps =
    ([WorkflowCmd.Line [WorkflowCmd.Text ("Created workflow: " +:+ name)]],
     None, fs') /\
    WorkflowCmd.list home fs' =
    ([WorkflowCmd.Line [WorkflowCmd.Text (WorkflowCmd.newline +:+ "Workflows:")];
      WorkflowCmd.Line [WorkflowCmd.Text "=========="];
      WorkflowCmd.Line [WorkflowCmd.Text (WorkflowCmd.newline +:+ name)];
      WorkflowCmd.Line
        [WorkflowCmd.Text "Description: ";
         WorkflowCmd.Str (VStr (WorkflowCmd.described name description))];
      WorkflowCmd.Line [WorkflowCmd.Text "Steps: "; WorkflowCmd.Num n]],
     None).
Proof.
  intros Hfresh Hsteps Hlen.
  destruct (create_on_fresh_disk home fs name description steps listed
              Hfresh Hsteps) as [Hcreate Hinit].
  eexists. split; [apply Hcreate|].
  unfold WorkflowCmd.list. rewrite Hinit. cbn.
  rewrite String.eqb_refl. cbn. by rewrite Hlen.
Qed.

Lemma X10_created_workflow_is_listed_witness :
  exists fs',
    WorkflowCmd.create "/home/dev" ∅ "nightly" None None =
    ([WorkflowCmd.Line [WorkflowCmd.Text "Created workflow: nightly"]],
     None, fs') /\
    WorkflowCmd.list "/home/dev" fs' =
    ([WorkflowCmd.Line [WorkflowCmd.Text (WorkflowCmd.newline +:+ "Workflows:")];
      WorkflowCmd.Line [WorkflowCmd.Text "=========="];
      WorkflowCmd.Line [WorkflowCmd.Text (WorkflowCmd.newline +:+ "nightly")];
      WorkflowCmd.Line
        [WorkflowCmd.Text "Description: ";
         WorkflowCmd.Str (VStr "Workflow: nightly")];
      WorkflowCmd.Line [WorkflowCmd.Text "Steps: "; WorkflowCmd.Num 0]],
     None).
Proof.
  apply (X10_created_workflow_is_listed "/home/dev" ∅ "nightly" None None
           (VList []) 0);
    reflexivity.
Defined.

(** X11. A workflow created from a steps file whose content has no length
    (an empty file, a number) is stored all the same, and from then on
    [list] fails: it shows the heading, the name and the description and
    ends in the [ClickException] of the [TypeError] of [len]. *)
Theorem X11_steps_without_length_break_list
  home fs name description steps listed e :
  fs !! WorkflowCmd.store_path home = None ->
  WorkflowCmd.load_steps fs steps = Ok listed ->
  py_len listed = Raise e ->
  exists fs',
    WorkflowCmd.create home fs name description steps =
    ([WorkflowCmd.Line [WorkflowCmd.Text ("Created workflow: " +:+ name)]],
     None, fs') /\
    WorkflowCmd.list home fs' =
    ([WorkflowCmd.Line [WorkflowCmd.Text (WorkflowCmd.newline +:+ "Workflows:")];
      WorkflowCmd.Line [WorkflowCmd.Text "=========="];
      WorkflowCmd.Line [WorkflowCmd.Text (WorkflowCmd.newline +:+ name)];
      WorkflowCmd.Line
        [WorkflowCmd.Text "Description: ";
         WorkflowCmd.Str (VStr (WorkflowCmd.described name description))]],
     Some e).
Proof.
  intros Hfresh Hsteps Hlen.
  destruct (create_on_fresh_disk home fs name description steps listed
              Hfresh Hsteps) as [Hcreate Hinit].
  eexists. split; [apply Hcreate|].
  unfold WorkflowCmd.list. rewrite Hinit. cbn.
  rewrite String.eqb_refl. cbn. by rewrite Hlen.
Qed.

Lemma X11_steps_without_length_break_list_witness :
  exists fs',
    WorkflowCmd.create "/home/dev" (<["steps.yaml" := VNone]> ∅) "nightly"
      (Some "every night") (Some "steps.yaml") =
    ([WorkflowCmd.Line [WorkflowCmd.Text "Created workflow: nightly"]],
     None, fs') /\
    WorkflowCmd.list "/home/dev" fs' =
    ([WorkflowCmd.Line [WorkflowCmd.Text (WorkflowCmd.newline +:+ "Workflows:")];
      WorkflowCmd.Line [WorkflowCmd.Text "=========="];
      WorkflowCmd.Line [WorkflowCmd.Text (WorkflowCmd.newline +:+ "nightly")];
      WorkflowCmd.Line
        [WorkflowCmd.Text "Description: "; WorkflowCmd.Str (VStr "every night")]],
     Some (TypeError "len" "NoneType")).
Proof.
  apply (X11_steps_without_length_break_list "/home/dev"
           (<["steps.yaml" := VNone]> ∅) "nightly" (Some "every night")
           (Some "steps.yaml") VNone (TypeError "len" "NoneType"));
    reflexivity.
Defined.

(** X12. For a name that is not in the store, [run] shows nothing and ends
    in the [ClickException] "Workflow '<name>' not found", while [remove]
    reports "Removed workflow: <name>" as if it had removed something and
    leaves the disk as it is. *)
Theorem X12_commands_on_a_missing_name home fs name file output d :
  Cli._load_workflows fs (WorkflowCmd.store_path home) = VDict d ->
  dict_get name d = None ->
  WorkflowCmd.run home fs name file output =
  ([], Some (External "ClickException" ("Workflow '" +:+ name +:+ "' not found")))
  /\
  WorkflowCmd.remove home fs name =
  ([WorkflowCmd.Line [WorkflowCmd.Text ("Removed workflow: " +:+ name)]],
   None, fs).
Proof.
  intros Hstore Hget. split.
  - unfold WorkflowCmd.run. rewrite init_default, Hstore.
    unfold Cli.get_workflow. cbn. by rewrite Hget.
  - unfold WorkflowCmd.remove. rewrite init_default, Hstore.
    unfold Cli.remove_workflow, dict_mem. cbn. unfold dict_mem.
    by rewrite Hget.
Qed.

Lemma X12_commands_on_a_missing_name_witness :
  WorkflowCmd.run "/home/dev" ∅ "nightly" None None =
  ([], Some (External "ClickException" "Workflow 'nightly' not found"))
  /\
  WorkflowCmd.remove "/home/dev" ∅ "nightly" =
  ([WorkflowCmd.Line [WorkflowCmd.Text "Removed workflow: nightly"]], None, ∅).
Proof.
  apply (X12_commands_on_a_missing_name "/home/dev" ∅ "nightly" None None []);
    reflexivity.
Defined.

(** X13. [update] of a stored workflow replaces its steps by the content of
    the steps file and keeps its other fields; the change is on disk, so a
    manager of a later process gives the changed record under the name. *)
Theorem X13_update_replaces_the_steps
  home fs name steps_file d record new_steps :
  Cli._load_workflows fs (WorkflowCmd.store_path home) = VDict d ->
  dict_get name d = Some (VDict record) ->
  record <> [] ->
  fs !! steps_file = Some new_steps ->
  exists fs',
    WorkflowCmd.update home fs name steps_file =
    ([WorkflowCmd.Line [WorkflowCmd.Text ("Updated workflow: " +:+ name)]],
     None, fs') /\
    Cli.get_workflow (Cli.init home fs' None) name =
    Ok (VDict (dict_set "steps" new_steps record)).
Proof.
  intros Hstore Hget Hrecord Hfile.
  assert (Htrue : truthy (VDict record) = true) by (by destruct record).
  exists (<[WorkflowCmd.store_path home :=
              VDict (dict_set name (VDict (dict_set "steps" new_steps record)) d)]>
            fs).
  split.
  - unfold WorkflowCmd.update. rewrite init_default.
    unfold Cli.get_workflow. cbn [Cli.workflows]. rewrite Hstore.
    cbn [py_get]. rewrite Hget, Htrue. cbn [negb].
    unfold WorkflowCmd.load. rewrite Hfile.
    unfold Cli.add_workflow. cbn [res_bind py_setitem Cli.workflows].
    reflexivity.
  - rewrite init_default.
    rewrite (load_saved_store _ _ _ (lookup_insert_eq _ _ _)).
    unfold Cli.get_workflow. cbn [Cli.workflows py_get].
    by rewrite dict_get_set_eq.
Qed.

Lemma X13_update_replaces_the_steps_witness :
  exists fs',
    WorkflowCmd.update "/home/dev"
      (<["steps.yaml" := VList [Cli.analyze_step]]>
         (<[WorkflowCmd.store_path "/home/dev" :=
              VDict [("ci", VDict [("description", VStr "checks");
                                   ("steps", VList [])])]]> ∅))
      "ci" "steps.yaml" =
    ([WorkflowCmd.Line [WorkflowCmd.Text "Updated workflow: ci"]], None, fs') /\
    Cli.get_workflow (Cli.init "/home/dev" fs' None) "ci" =
    Ok (VDict (dict_set "steps" (VList [Cli.analyze_step])
                 [("description", VStr "checks"); ("steps", VList [])])).
Proof.
  apply (X13_update_replaces_the_steps "/home/dev" _ "ci" "steps.yaml"
           [("ci", VDict [("description", VStr "checks"); ("steps", VList [])])]
           [("description", VStr "checks"); ("steps", VList [])]
           (VList [Cli.analyze_step]));
    [reflexivity | reflexivity | discriminate | reflexivity].
Defined.

End CommandFacts.

(** ** The core manager: listing *)

Section PathFacts.
Import Py Core.

Lemma strip_prefix_app p s : strip_prefix p (p +:+ s) = Some s.
Proof.
  induction p as [|a p IH]; [done|].
  rewrite append_cons. cbn [strip_prefix]. by rewrite Ascii.eqb_refl.
Qed.

Lemma strip_prefix_Some p s r : strip_prefix p s = Some r -> s = p +:+ r.
Proof.
  revert s. induction p as [|a p IH]; intros s; cbn [strip_prefix].
  - by intros [= ->].
  - destruct s as [|b s]; [done|].
    destruct (Ascii.eqb a b) eqn:E; [|done].
    apply Ascii.eqb_eq in E. subst b. intros Hs.
    by rewrite append_cons, (IH s Hs).
Qed.

Lemma ends_with_app suffix n : ends_with suffix (n +:+ suffix) = true.
Proof.
  induction n as [|c n IH].
  - change ("" +:+ suffix) with suffix.
    destruct suffix; cbn [ends_with]; by rewrite String.eqb_refl.
  - rewrite append_cons. cbn [ends_with]. rewrite IH. apply orb_true_r.
Qed.

Lemma ends_with_split suffix s :
  ends_with suffix s = true -> exists n, s = n +:+ suffix.
Proof.
  induction s as [|c s IH]; cbn [ends_with].
  - rewrite orb_false_r. intros Heq. exists "".
    apply String.eqb_eq in Heq. by rewrite <- Heq.
  - intros Hs. apply orb_true_iff in Hs as [Heq|Hrest].
    + exists "". apply String.eqb_eq in Heq. by rewrite <- Heq.
    + destruct (IH Hrest) as [n ->]. by exists (String c n).
Qed.

Lemma split_last_dot_yaml n :
  split_last_dot (n +:+ ".yaml") = Some (n, "yaml").
Proof.
  induction n as [|c n IH]; [done|].
  rewrite append_cons. cbn [split_last_dot]. by rewrite IH.
Qed.

Lemma stem_yaml n :
  stem (n +:+ ".yaml") = if String.eqb n "" then ".yaml" else n.
Proof.
  unfold stem. rewrite split_last_dot_yaml.
  destruct n; [done|]. cbn. done.
Qed.

(** The file of a name that has no separator is an entry of the
    directory of the manager. *)
Lemma workflow_file_entry self name :
  name <> "" ->
  occurs_in "/" name = false ->
  workflow_file self name = workflows_dir self +:+ "/" +:+ name +:+ ".yaml" /\
  listed_name (workflows_dir self) (workflow_file self name) = Some name.
Proof.
  intros Hname Hsep.
  assert (Hfile : workflow_file self name =
                  workflows_dir self +:+ "/" +:+ name +:+ ".yaml").
  { unfold workflow_file, joinpath.
    destruct name as [|c name]; [done|].
    rewrite occurs_in_slash_cons in Hsep.
    apply orb_false_iff in Hsep as [Hc _].
    rewrite append_cons. cbn [String.prefix].
    destruct (ascii_dec "/" c) as [<-|_]; [|reflexivity].
    by rewrite Ascii.eqb_refl in Hc. }
  split; [done|]. rewrite Hfile. unfold listed_name, entry_of.
  rewrite <- append_assoc, strip_prefix_app.
  rewrite occurs_in_slash_app, Hsep. cbn [orb].
  replace (String.eqb (name +:+ ".yaml") "") with false
    by (by destruct name).
  cbn. rewrite ends_with_app, stem_yaml.
  by destruct name.
Qed.

Lemma In_list_workflows self fs name :
  In name (list_workflows self fs) <->
  exists path, is_Some (fs !! path) /\
               listed_name (workflows_dir self) path = Some name.
Proof.
  unfold list_workflows. rewrite <- list_elem_of_In, list_elem_of_omap.
  split.
  - intros (path & Hpath & Hname). exists path. split; [|done].
    apply list_elem_of_fmap in Hpath as ([p v] & -> & Hpv).
    apply elem_of_map_to_list in Hpv. by exists v.
  - intros (path & [v Hv] & Hname). exists path. split; [|done].
    apply list_elem_of_fmap. exists (path, v). split; [done|].
    by apply elem_of_map_to_list.
Qed.

End PathFacts.

Section CoreListing.
Import Py Core.
Context `{Pydantic}.
Implicit Types (self : WorkflowManager) (fs : gmap string value).

(** X14. A workflow created under a name that is not empty and has no
    separator is among the names [list_workflows] returns. *)
Theorem X14_created_workflow_is_listed self fs fs' name steps_file :
  name <> "" ->
  occurs_in "/" name = false ->
  create_workflow self fs name steps_file = Ok fs' ->
  In name (list_workflows self fs').
Proof.
  intros Hname Hsep Hcreate.
  destruct (create_then_get _ _ _ _ _ Hcreate) as (workflow & _ & -> & _).
  apply In_list_workflows. exists (workflow_file self name). split.
  - rewrite lookup_insert_eq. by eexists.
  - by apply workflow_file_entry.
Qed.

(** X15. Every name [list_workflows] returns, the name [.yaml] apart, is
    the name of a stored workflow: [get_workflow] finds its file, so it
    does not answer [None]. *)
Theorem X15_listed_workflow_has_a_file self fs name :
  In name (list_workflows self fs) ->
  name <> ".yaml" ->
  is_Some (fs !! workflow_file self name) /\
  get_workflow self fs name <> Ok None.
Proof.
  intros Hin Hname. apply In_list_workflows in Hin as (path & Hfile & Hlisted).
  unfold listed_name, entry_of in Hlisted.
  destruct (strip_prefix (workflows_dir self +:+ "/") path) as [entry|] eqn:Hstrip;
    [|done].
  destruct (String.eqb entry "" || occurs_in "/" entry) eqn:Hentry; [done|].
  destruct (ends_with ".yaml" entry) eqn:Hends; [|done].
  apply ends_with_split in Hends as [n ->].
  rewrite stem_yaml in Hlisted.
  destruct (String.eqb n "") eqn:Hn; [by injection Hlisted as <-|].
  injection Hlisted as ->. apply String.eqb_neq in Hn.
  apply orb_false_iff in Hentry as [_ Hsep].
  rewrite occurs_in_slash_app in Hsep. apply orb_false_iff in Hsep as [Hsep _].
  apply strip_prefix_Some in Hstrip.
  destruct (workflow_file_entry self name Hn Hsep) as [Hpath _].
  assert (Hsame : workflow_file self name = path).
  { rewrite Hpath, Hstrip. by rewrite append_assoc. }
  rewrite Hsame. split; [done|].
  unfold get_workflow. rewrite Hsame. destruct Hfile as [document ->].
  by destruct (Workflow_kwargs document).
Qed.

End CoreListing.

Lemma X14_created_workflow_is_listed_witness :
  In "ci" (Core.list_workflows Core.manager Core.stored).
Proof.
  apply (@X14_created_workflow_is_listed Core.strict Core.manager
           (<[Core.workflow_file Core.manager "twice" :=
                Core.Workflow_dict Core.twice]> Core.disk)
           Core.stored "ci" "ci-steps.yaml");
    [discriminate | reflexivity | reflexivity].
Defined.

Lemma X15_listed_workflow_has_a_file_witness :
  is_Some (Core.stored !! Core.workflow_file Core.manager "twice") /\
  @Core.get_workflow Core.strict Core.manager Core.stored "twice" <> Py.Ok None.
Proof.
  apply (@X15_listed_workflow_has_a_file Core.strict Core.manager Core.stored
           "twice");
    [|discriminate].
  apply (proj2 (In_list_workflows Core.manager Core.stored "twice")).
  exists (Core.workflow_file Core.manager "twice").
  split; [by eexists | reflexivity].
Defined.


(** ** The configuration manager: reading and writing *)

Section ConfFacts.
Import Py Conf.
Context `{BaseModel} `{Validators}.
Implicit Types (self : ConfigManager) (fs : gmap string value) (c : Config).



Lemma from_kwargs_present kwargs key validator default v :
  dict_get key kwargs = Some v ->
  validator v = Some v ->
  from_kwargs kwargs key validator default = Ok v.
Proof. intros Hget Hv. unfold from_kwargs. by rewrite Hget, Hv. Qed.

(** The constructor gives back a well-typed configuration from its dict. *)
Lemma Config_init_dict c :
  well_typed c ->
  match Config_dict c with
  | VDict kwargs => Config_init kwargs = Ok c
  | _ => False
  end.
Proof.
  destruct c as [m t n k h].
  intros ((s & Hm) & (r & Ht) & (z & Hn) & Hk & Hh). cbn in *. subst m t n.
  unfold Config_init.
  rewrite (from_kwargs_present _ "model" _ _ (VStr s)) by
    (done || apply as_str_str).
  rewrite (from_kwargs_present _ "temperature" _ _ (VFloat r)) by
    (done || apply as_float_float).
  rewrite (from_kwargs_present _ "max_tokens" _ _ (VInt z)) by
    (done || apply as_int_int).
  rewrite (from_kwargs_present _ "api_key" _ _ k);
    [|done | destruct Hk as [->|[s' ->]]; [done | apply as_str_str]].
  rewrite (from_kwargs_present _ "huggingface_token" _ _ h);
    [|done | destruct Hh as [->|[s' ->]]; [done | apply as_str_str]].
  reflexivity.
Qed.

Lemma save_then_load self other fs :
  well_typed (config self) ->
  config_file other = config_file self ->
  exists loaded,
    load_config other (save_config self fs) = Ok loaded /\
    config loaded = config self /\
    config_file loaded = config_file self.
Proof.
  intros Htyped Hfile. unfold load_config, save_config.
  rewrite Hfile, lookup_insert_eq.
  pose proof (Config_init_dict (config self) Htyped) as Hinit.
  unfold Config_dict in *. cbn [truthy]. rewrite Hinit. cbn.
  eexists. split_and!; [reflexivity | reflexivity | done].
Qed.

(** X19. What [save_config] writes, [load_config] reads back: for a
    configuration whose fields hold values of their annotated types, a
    manager of the same file that loads after the save has that very
    configuration. *)
Theorem X19_save_then_load self other fs :
  well_typed (config self) ->
  config_file other = config_file self ->
  exists loaded,
    load_config other (save_config self fs) = Ok loaded /\
    config loaded = config self /\
    config_file loaded = config_file self.
Proof.
  intros Htyped Hfile. by apply save_then_load.
Qed.

(** X20. [load_config] on a disk without the file keeps the configuration
    in memory; on a file that is empty or holds an empty mapping it puts
    the defaults in its place, whatever was in memory. *)
Theorem X20_load_of_nothing self fs :
  (fs !! config_file self = None -> load_config self fs = Ok self) /\
  (forall document,
     fs !! config_file self = Some document ->
     truthy document = false ->
     exists loaded,
       load_config self fs = Ok loaded /\ config loaded = Config_default).
Proof.
  split.
  - intros Hfile. unfold load_config. by rewrite Hfile.
  - intros document Hfile Hfalsy. unfold load_config.
    rewrite Hfile, Hfalsy. by eexists.
Qed.

End ConfFacts.


Lemma X19_save_then_load_witness :
  exists loaded,
    @Conf.load_config Conf.exact (Conf.init "/home/dev")
      (Conf.save_config (Conf.init "/home/dev") ∅) = Py.Ok loaded /\
    Conf.config loaded = Conf.config (Conf.init "/home/dev") /\
    Conf.config_file loaded = Conf.config_file (Conf.init "/home/dev").
Proof.
  apply (@X19_save_then_load Conf.exact (Conf.init "/home/dev")
           (Conf.init "/home/dev") ∅); [|reflexivity].
  unfold Conf.well_typed. cbn. split_and!; eauto.
Defined.

Lemma X20_load_of_nothing_witness :
  @Conf.load_config Conf.exact (Conf.init "/home/dev") ∅ =
  Py.Ok (Conf.init "/home/dev") /\
  exists loaded,
    @Conf.load_config Conf.exact (Conf.init "/home/dev")
      (<["/home/dev/.devchat/config.yaml" := Py.VNone]> ∅) = Py.Ok loaded /\
    Conf.config loaded = Conf.Config_default.
Proof.
  split.
  - apply (proj1 (@X20_load_of_nothing Conf.exact (Conf.init "/home/dev") ∅)).
    reflexivity.
  - apply (proj2 (@X20_load_of_nothing Conf.exact (Conf.init "/home/dev")
                    (<["/home/dev/.devchat/config.yaml" := Py.VNone]> ∅))
             Py.VNone);
      reflexivity.
Defined.

Section ConfRestart.
Import Py Conf.
Context `{BaseModel} `{Validators}.
Implicit Types (fs : gmap string value) (key val : string).



End ConfRestart.


(** ** The configuration commands *)

Section ConfigCmdFacts.
Import Py.
Implicit Types (fs : gmap string value) (home key val : string).

Lemma load_saved_config home fs config :
  truthy config = true ->
  ConfigCmd.load_config home (ConfigCmd.save_config home fs config) = config.
Proof.
  intros Htrue. unfold ConfigCmd.load_config, ConfigCmd.save_config.
  by rewrite lookup_insert_eq, Htrue.
Qed.

Lemma dict_set_truthy k (v : value) d : truthy (VDict (dict_set k v d)) = true.
Proof. destruct d as [|[k0 v0] d]; cbn; [done|]. by destruct (String.eqb k0 k). Qed.


(** X23. [set] followed by [get] in a later process shows the value that
    was set, and [get] of any other key shows what it showed before. *)
Theorem X23_config_set_then_get home fs key val d :
  ConfigCmd.load_config home fs = VDict d ->
  exists fs',
    ConfigCmd.set home fs key val =
    ([WorkflowCmd.Line [WorkflowCmd.Text ("Set " +:+ key +:+ " = " +:+ val)]],
     None, fs') /\
    ConfigCmd.get home fs' key = ([WorkflowCmd.Raw (VStr val)], None) /\
    forall other, other <> key ->
      ConfigCmd.get home fs' other = ConfigCmd.get home fs other.
Proof.
  intros Hload. unfold ConfigCmd.set. rewrite Hload. cbn [py_setitem].
  eexists. split_and!; [reflexivity | |].
  - unfold ConfigCmd.get. rewrite load_saved_config by apply dict_set_truthy.
    cbn. by rewrite dict_get_set_eq.
  - intros other Hother. unfold ConfigCmd.get.
    rewrite load_saved_config by apply dict_set_truthy. rewrite Hload.
    cbn. by rewrite dict_get_set_ne.
Qed.

Lemma X23_config_set_then_get_witness :
  exists fs',
    ConfigCmd.set "/home/dev" ∅ "model" "gpt-3.5" =
    ([WorkflowCmd.Line [WorkflowCmd.Text "Set model = gpt-3.5"]], None, fs') /\
    ConfigCmd.get "/home/dev" fs' "model" =
    ([WorkflowCmd.Raw (VStr "gpt-3.5")], None) /\
    forall other, other <> "model" ->
      ConfigCmd.get "/home/dev" fs' other = ConfigCmd.get "/home/dev" ∅ other.
Proof.
  apply (X23_config_set_then_get "/home/dev" ∅ "model" "gpt-3.5" []).
  reflexivity.
Defined.



(** X25. [setup] replaces the whole configuration: whatever the file held,
    afterwards [get] shows the key that was given for [openai_api_key],
    and for every key other than [openai_api_key], [model] and
    [temperature] it says that the key is not found. *)
Theorem X25_setup_discards_the_old_configuration home fs api_key key :
  key <> "openai_api_key" -> key <> "model" -> key <> "temperature" ->
  exists fs',
    ConfigCmd.setup home fs api_key =
    ([WorkflowCmd.Line [WorkflowCmd.Text "Configuration setup complete"]],
     None, fs') /\
    ConfigCmd.get home fs' "openai_api_key" =
    ([WorkflowCmd.Raw (VStr api_key)], None) /\
    ConfigCmd.get home fs' key =
    ([WorkflowCmd.Line
        [WorkflowCmd.Text ("Configuration key '" +:+ key +:+ "' not found")]],
     None).
Proof.
  intros H1 H2 H3. apply String.eqb_neq in H1, H2, H3.
  rewrite String.eqb_sym in H1, H2, H3.
  eexists. split_and!; [reflexivity | |].
  - unfold ConfigCmd.get. by rewrite load_saved_config.
  - unfold ConfigCmd.get. rewrite load_saved_config by done.
    cbn [py_get dict_get]. by rewrite H1, H2, H3.
Qed.

Lemma X25_setup_discards_the_old_configuration_witness :
  exists fs',
    ConfigCmd.setup "/home/dev"
      (<[ConfigCmd.CONFIG_FILE "/home/dev" := VDict [("editor", VStr "vi")]]> ∅)
      "sk-1" =
    ([WorkflowCmd.Line [WorkflowCmd.Text "Configuration setup complete"]],
     None, fs') /\
    ConfigCmd.get "/home/dev" fs' "openai_api_key" =
    ([WorkflowCmd.Raw (VStr "sk-1")], None) /\
    ConfigCmd.get "/home/dev" fs' "editor" =
    ([WorkflowCmd.Line
        [WorkflowCmd.Text "Configuration key 'editor' not found"]], None).
Proof.
  apply (X25_setup_discards_the_old_configuration "/home/dev" _ "sk-1" "editor");
    discriminate.
Defined.

End ConfigCmdFacts.

(** ** The analyzer of the core *)

Section AnalysisFacts.
Import Analysis.

Lemma node_induction (P : node -> Prop) :
  (forall k children, Forall P children -> P (Node k children)) ->
  forall n, P n.
Proof.
  intros Hnode. fix IH 1. intros [k children]. apply Hnode.
  induction children as [|child children IHc]; constructor;
    [apply IH | exact IHc].
Qed.

Lemma complexity_of_children (children : list node) (start : nat) :
  Forall (fun child =>
            _calculate_complexity child = size child + branches_below child)
    children ->
  fold_left
    (fun complexity child =>
       (if branching child then complexity + 1 else complexity) +
       _calculate_complexity child)
    children start =
  start + list_sum (map size children) +
  list_sum
    (map (fun child => (if branching child then 1 else 0) + branches_below child)
       children).
Proof.
  intros Hall. revert start. unfold list_sum.
  induction Hall as [|child children Hchild _ IH]; intros start; cbn.
  - lia.
  - rewrite IH, Hchild. destruct (branching child); lia.
Qed.

Lemma complexity_closed_form (n : node) :
  _calculate_complexity n = size n + branches_below n /\
  size n <= _calculate_complexity n.
Proof.
  assert (Heq : _calculate_complexity n = size n + branches_below n).
  { induction n as [k children IH] using node_induction.
    cbn [_calculate_complexity size branches_below].
    rewrite (complexity_of_children children 1 IH). lia. }
  split; [done | lia].
Qed.

(** X26. [_calculate_complexity] counts every node of the tree once and
    every branching node below the root once more; so it is at least the
    number of nodes of the tree, and equal to it for a tree without
    branching nodes below the root. *)
Theorem X26_complexity_counts_every_node (n : node) :
  _calculate_complexity n = size n + branches_below n /\
  size n <= _calculate_complexity n.
Proof. apply complexity_closed_form. Qed.

(** X27. When the complexity in the metrics is that of a tree with more
    than ten nodes, whatever the nodes are, the first suggestion is to
    break down complex functions. *)
Theorem X27_more_than_ten_nodes_are_complex
  (m : metrics) (pylint_results : string) (tree : node) :
  complexity m = inl (_calculate_complexity tree) ->
  10 < size tree ->
  exists others,
    _generate_suggestions m pylint_results = break_down :: others.
Proof.
  intros Hm Hsize. unfold _generate_suggestions. rewrite Hm.
  destruct (complexity_closed_form tree) as [_ Hle].
  replace (10 <? _calculate_complexity tree) with true
    by (symmetry; apply Nat.ltb_lt; lia).
  by eexists.
Qed.

Lemma X27_more_than_ten_nodes_are_complex_witness :
  exists others,
    _generate_suggestions
      {| lines_of_code := 11; functions := 0; classes := 0; imports := 0;
         complexity := inl 12 |}
      "" = break_down :: others.
Proof.
  apply (X27_more_than_ten_nodes_are_complex
           {| lines_of_code := 11; functions := 0; classes := 0; imports := 0;
              complexity := inl 12 |}
           ""
           (Node Other (repeat (Node Other []) 11)));
    [reflexivity | cbn; lia].
Defined.

End AnalysisFacts.
